(** * bulk_site_creator: a shallow embedding of [site_creator.py]

    The script reads [sites.csv], geocodes every row, asks Google for the
    time zone, optionally resolves an RF template name to its id, and POSTs
    one site per row to the Mist API.  Python dictionaries are finite maps
    with string keys, exceptions are an explicit result, and every call that
    leaves the process (geocoder, HTTP, clock) is answered by an oracle that
    sees the calls made so far and is recorded in the run's state. *)

From Stdlib Require Import QArith.
From stdpp Require Import gmap strings list fin_maps.

Set Warnings "-register-all,-clear-no-such-hyp".
Open Scope Z_scope.

(** ** Python values *)

(** The JSON-shaped values the script handles.  Latitude and longitude are
    floats that the script only stores and forwards, never computes with;
    they are carried as rationals. *)
Inductive value : Type :=
| VNone
| VBool (b : bool)
| VNum (q : Q)
| VStr (s : string)
| VList (l : list value)
| VDict (d : gmap string value).

(** The exceptions that can arise in the script and the libraries it calls.
    All of them derive from Python's [Exception]. *)
Inductive exn : Type :=
| TypeError
| AttributeError
| KeyError (k : string)
| StopIteration
| JSONDecodeError
| RequestException
| OSError
| GeocoderException.

(** Python's class test [isinstance(e, LookupError)]: of the exceptions
    above only [KeyError] derives from [LookupError]. *)
Definition is_LookupError (e : exn) : bool :=
  match e with
  | KeyError _ => true
  | _ => false
  end.

(** Truth value of an object, as used by [if api_verify:]. *)
Definition truthy (v : value) : bool :=
  match v with
  | VNone => false
  | VBool b => b
  | VNum q => negb (Qeq_bool q 0)
  | VStr s => negb (String.eqb s "")
  | VList l => negb (bool_decide (l = []))
  | VDict d => negb (bool_decide (d = ∅))
  end.

(** The outcome of a step: a value, or a raised exception. *)
Inductive result (A : Type) : Type :=
| Ok (a : A)
| Raise (e : exn).
Arguments Ok {A} a.
Arguments Raise {A} e.

(** [v[k]] for a string key: dictionaries look the key up, strings and
    lists want integer indices, the remaining objects are not
    subscriptable. *)
Definition getitem (v : value) (k : string) : result value :=
  match v with
  | VDict d =>
      match d !! k with
      | Some x => Ok x
      | None => Raise (KeyError k)
      end
  | _ => Raise TypeError
  end.

(** [v[k] = x]: only a dictionary accepts a string key; in particular
    [None] does not support item assignment. *)
Definition setitem (v : value) (k : string) (x : value) : result value :=
  match v with
  | VDict d => Ok (VDict (<[k:=x]> d))
  | _ => Raise TypeError
  end.

(** [{**a, **b}]: the entries of [b] override those of [a]; unpacking
    anything but a mapping is a [TypeError]. *)
Definition dict_merge (a : gmap string value) (b : value)
  : result (gmap string value) :=
  match b with
  | VDict d => Ok (d ∪ a)
  | _ => Raise TypeError
  end.

(** The objects a [for] clause draws from an iterable.  Iterating a
    dictionary yields its keys and iterating a string its characters, all of
    them [str] objects. *)
Definition iter_items (v : value) : result (list value) :=
  match v with
  | VList l => Ok l
  | VDict d => Ok (VStr <$> (map_to_list d).*1)
  | VStr s => Ok ((λ c, VStr (String c "")) <$> String.list_ascii_of_string s)
  | _ => Raise TypeError
  end.

(** ** Input rows *)

(** A cell of a [csv.DictReader] record is a [str], or [None] where the row
    was shorter than the header. *)
Definition cell_value (c : option string) : value :=
  match c with
  | Some s => VStr s
  | None => VNone
  end.

(** A record of [csv.DictReader]: the cells by column name, and the
    surplus cells of an over-long row, which the reader stores under the key
    [None]. *)
Record csv_row : Type := {
  row_fields : gmap string (option string);
  row_rest : option (list string)
}.

(** [site[k]] on a record. *)
Definition row_getitem (site : csv_row) (k : string) : result (option string) :=
  match row_fields site !! k with
  | Some c => Ok c
  | None => Raise (KeyError k)
  end.

(** [dict(zip(fieldnames, row))]: pairs are inserted from left to right, so
    a repeated column name keeps its last cell. *)
Fixpoint dict_zip (fieldnames row : list string) (d : gmap string (option string))
  : gmap string (option string) :=
  match fieldnames, row with
  | k :: ks, c :: cs => dict_zip ks cs (<[k:=Some c]> d)
  | _, _ => d
  end.

(** One step of [DictReader.__next__] on a non-blank row: zip, then either
    keep the surplus cells under [None] or fill the missing columns with
    [restval = None]. *)
Definition DictReader_row (fieldnames row : list string) : csv_row :=
  let d := dict_zip fieldnames row ∅ in
  let lf := length fieldnames in
  let lr := length row in
  if (lf <? lr)%nat then
    {| row_fields := d; row_rest := Some (drop lf row) |}
  else
    {| row_fields := foldl (λ m k, <[k:=None]> m) d (drop lr fieldnames);
       row_rest := None |}.

(** [csv.DictReader] over the rows [csv.reader] delivers: the first row is
    the header, blank rows after it are skipped. *)
Definition DictReader (lines : list (list string)) : list csv_row :=
  match lines with
  | [] => []
  | fieldnames :: rows =>
      DictReader_row fieldnames <$> filter (λ r, r ≠ []) rows
  end.

(** ** The outside world *)

(** What [geocoder.google] hands back: the attributes the script reads.
    The library reports an address it cannot resolve by leaving them
    [None]. *)
Record gaddr : Type := {
  ga_address : value;
  ga_lat : value;
  ga_lng : value;
  ga_country : value
}.

(** A [requests] response: the status code and the decoded body, [None]
    when the body is not JSON and [.json()] raises. *)
Record response : Type := {
  status_code : Z;
  json : option value
}.

(** Calls that leave the process, in the order they are made. *)
Inductive call : Type :=
| GeocoderGoogle (address : value)
| TimezoneGet (lat lng : value) (timestamp : Z) (key : string)
| RequestsGet (url : string) (headers : gmap string value)
| RequestsPost (url : string) (headers : gmap string value) (data : value).

(** What [print] receives. *)
Inductive printable : Type :=
| PValue (v : value)
| PExn (e : exn)
| PRows (rows : list csv_row).

(** The environment of a run.  Every answer may depend on the calls made
    before it; [None] stands for the library raising.  [csv_file] gives the
    rows of cells [csv.reader] delivers for a file name. *)
Record World : Type := {
  google_api_key : string;
  csv_file : string → option (list (list string));
  time_time : list call → Z;
  geocoder_google : list call → value → option gaddr;
  timezone_get : list call → value → value → Z → string → option response;
  requests_get : list call → string → gmap string value → option response;
  requests_post :
    list call → string → gmap string value → value → option response
}.

(** The state of a run: the calls made, the console, and the two outcome
    lists of [main]. *)
Record state : Type := {
  calls : list call;
  console : list printable;
  successful_sites : list value;
  failed_sites : list value
}.

(** ** Computations that may raise *)

Definition M (A : Type) : Type := state → result A * state.

#[global] Instance M_ret : MRet M := λ A a s, (Ok a, s).

#[global] Instance M_bind : MBind M := λ A B f m s,
  match m s with
  | (Ok a, s') => f a s'
  | (Raise e, s') => (Raise e, s')
  end.

(** A pure step that may raise. *)
Definition lift {A : Type} (r : result A) : M A := λ s, (r, s).

(** [try: m  except Exception as e: h e]. *)
Definition try_except {A : Type} (m : M A) (h : exn → M A) : M A := λ s,
  match m s with
  | (Ok a, s') => (Ok a, s')
  | (Raise e, s') => h e s'
  end.

(** The four ways a step changes the state. *)
Definition log_call (c : call) (s : state) : state :=
  {| calls := calls s ++ [c]; console := console s;
     successful_sites := successful_sites s;
     failed_sites := failed_sites s |}.

Definition log_print (p : printable) (s : state) : state :=
  {| calls := calls s; console := console s ++ [p];
     successful_sites := successful_sites s;
     failed_sites := failed_sites s |}.

Definition push_successful (body : value) (s : state) : state :=
  {| calls := calls s; console := console s;
     successful_sites := successful_sites s ++ [body];
     failed_sites := failed_sites s |}.

Definition push_failed (body : value) (s : state) : state :=
  {| calls := calls s; console := console s;
     successful_sites := successful_sites s;
     failed_sites := failed_sites s ++ [body] |}.

Definition clear_sites (s : state) : state :=
  {| calls := calls s; console := console s;
     successful_sites := []; failed_sites := [] |}.

Definition print (p : printable) : M unit := λ s, (Ok (), log_print p s).

(** A call to the outside: it is logged, and the oracle answers from the
    calls made before it. *)
Definition external {A : Type} (c : call) (answer : list call → option A)
    (e : exn) : M A := λ s,
  (match answer (calls s) with
   | Some a => Ok a
   | None => Raise e
   end,
   log_call c s).

(** [for x in l: f x]. *)
Fixpoint for_each {A : Type} (l : list A) (f : A → M unit) : M unit :=
  match l with
  | [] => mret ()
  | x :: l' => f x ;; for_each l' f
  end.

(** ** The Mist client *)

(** [MistAPI] and its subclass [MistAPIToken].  The base class leaves
    [header] as the empty string; the subclass stores the token and the
    authorization header built from it. *)
Record MistAPI : Type := {
  host : string;
  org : string;
  header : value;
  mist_api_token : option string
}.

Definition MistAPI_init (host org : string) : MistAPI :=
  {| host := host; org := org; header := VStr ""; mist_api_token := None |}.

Definition MistAPIToken (host org mist_api_token : string) : MistAPI :=
  {| host := host; org := org;
     header := VDict {[ "Authorization" := VStr ("Token " +:+ mist_api_token) ]};
     mist_api_token := Some mist_api_token |}.

Record Mist : Type := { mistAPI : MistAPI }.

(** The command line: [-k], [-o] and the optional [-e]. *)
Record Namespace : Type := {
  arg_mist_api_key : string;
  arg_mist_org : string;
  arg_mist_europe : option string
}.

(** [results.status_code] where [results] may be [None]. *)
Definition get_status_code (r : option response) : result Z :=
  match r with
  | Some resp => Ok (status_code resp)
  | None => Raise AttributeError
  end.

(** [r.json()] where [r] may be [None]. *)
Definition call_json (r : option response) : result value :=
  match r with
  | Some resp =>
      match json resp with
      | Some v => Ok v
      | None => Raise JSONDecodeError
      end
  | None => Raise AttributeError
  end.

(** [item["name"] == rf_template_name]: the right operand is a cell of the
    input file, so the two are equal when both are the same [str] or both
    are [None]. *)
Definition eq_cell (v : value) (c : option string) : bool :=
  match v, c with
  | VStr a, Some b => String.eqb a b
  | VNone, None => true
  | _, _ => false
  end.

(** [next(item for item in items if item["name"] == rf_template_name)]:
    the first item that passes the test; running off the end raises
    [StopIteration], and so does whatever the test raises on the way. *)
Fixpoint next_named (items : list value) (rf_template_name : option string)
  : result value :=
  match items with
  | [] => Raise StopIteration
  | item :: rest =>
      match getitem item "name" with
      | Raise e => Raise e
      | Ok n =>
          if eq_cell n rf_template_name then Ok item
          else next_named rest rf_template_name
      end
  end.

Section Program.

Variable W : World.

Definition content_type : gmap string value :=
  {[ "content-type" := VStr "application/json" ]}.

Definition http_get (self : Mist) (url : string) : M (option response) :=
  try_except
    (header ← lift (dict_merge content_type (header (mistAPI self)));
     let my_url := "https://" +:+ host (mistAPI self) +:+ url in
     response ← external (RequestsGet my_url header)
                  (λ h, requests_get W h my_url header) RequestException;
     mret (Some response))
    (λ e, print (PExn e);; mret None).

Definition http_post (self : Mist) (url : string) (body : value)
  : M (option response) :=
  try_except
    (header ← lift (dict_merge content_type (header (mistAPI self)));
     let my_url := "https://" +:+ host (mistAPI self) +:+ url in
     response ← external (RequestsPost my_url header body)
                  (λ h, requests_post W h my_url header body) RequestException;
     mret (Some response))
    (λ e, print (PExn e);; mret None).

(** Returns [True] on status 200, [False] when anything raised, and falls
    off the end, returning [None], on any other status. *)
Definition verify_self (self : Mist) : M value :=
  try_except
    (results ← http_get self "/api/v1/self";
     status ← lift (get_status_code results);
     if status =? 200 then mret (VBool true) else mret VNone)
    (λ e, print (PExn e);; mret (VBool false)).

Definition rftemplates_url (self : Mist) : string :=
  "/api/v1/orgs/" +:+ org (mistAPI self) +:+ "/rftemplates".

Definition get_rf_templates (self : Mist) : M value :=
  try_except
    (r ← http_get self (rftemplates_url self);
     lift (call_json r))
    (λ e, print (PExn e);; mret VNone).

Definition get_rftemplate_by_name (self : Mist)
    (rf_template_name : option string) : M value :=
  rf_templates ← get_rf_templates self;
  items ← lift (iter_items rf_templates);
  lift (next_named items rf_template_name).

Definition sites_url (self : Mist) : string :=
  "/api/v1/orgs/" +:+ org (mistAPI self) +:+ "/sites".

Definition create_site (self : Mist) (body : value) : M (option response) :=
  http_post self (sites_url self) body.

(** ** Google lookups *)

(** [int(time.time())]. *)
Definition time_now : M Z := λ s, (Ok (time_time W (calls s)), s).

Definition get_google_timezone (lat lng : value) : M value :=
  try_except
    (timestamp ← time_now;
     let key := google_api_key W in
     response ← external (TimezoneGet lat lng timestamp key)
                  (λ h, timezone_get W h lat lng timestamp key)
                  RequestException;
     data ← lift (call_json (Some response));
     lift (getitem data "timeZoneId"))
    (λ e, print (PExn e);; mret VNone).

Definition get_google_geoinfo (address : value) : M value :=
  try_except
    (gaddr ← external (GeocoderGoogle address)
               (λ h, geocoder_google W h address) GeocoderException;
     mret (VDict
       (<[ "country_code" := ga_country gaddr ]>
        (<[ "latlng" := VDict (<[ "lng" := ga_lng gaddr ]>
                               {[ "lat" := ga_lat gaddr ]}) ]>
         {[ "address" := ga_address gaddr ]}))))
    (λ e, print (PExn e);; mret VNone).

(** ** The orchestrator *)

Definition append_successful (body : value) : M unit :=
  λ s, (Ok (), push_successful body s).

Definition append_failed (body : value) : M unit :=
  λ s, (Ok (), push_failed body s).

(** The body of the loop over [site_data]. *)
Definition process_site (mist_connector : Mist) (site : csv_row) : M unit :=
  address ← lift (row_getitem site "site_address");
  body ← get_google_geoinfo (cell_value address);
  name ← lift (row_getitem site "site_name");
  body ← lift (setitem body "name" (cell_value name));
  latlng ← lift (getitem body "latlng");
  lat ← lift (getitem latlng "lat");
  latlng ← lift (getitem body "latlng");
  lng ← lift (getitem latlng "lng");
  timezone ← get_google_timezone lat lng;
  body ← lift (setitem body "timezone" timezone);
  rf_template_name ← lift (row_getitem site "rf_template_name");
  body ← (if bool_decide (rf_template_name ≠ Some "") then
            rf_template_name ← lift (row_getitem site "rf_template_name");
            rf_template ← get_rftemplate_by_name mist_connector rf_template_name;
            id ← lift (getitem rf_template "id");
            lift (setitem body "rftemplate_id" id)
          else mret body);
  print (PValue body);;
  results ← create_site mist_connector body;
  status ← lift (get_status_code results);
  if status =? 200 then append_successful body else append_failed body.

Definition read_csv (filename : string) : M (list csv_row) :=
  lines ← lift (match csv_file W filename with
                | Some lines => Ok lines
                | None => Raise OSError
                end);
  let site_data := DictReader lines in
  print (PRows site_data);;
  mret site_data.

Definition reset_sites : M unit := λ s, (Ok (), clear_sites s).

Definition print_names (sites : list value) : M unit :=
  for_each sites (λ site, name ← lift (getitem site "name"); print (PValue name)).

Definition main (argv : Namespace) : M unit :=
  reset_sites;;
  let mist_api_key := arg_mist_api_key argv in
  let org := arg_mist_org argv in
  let host := match arg_mist_europe argv with
              | Some _ => "api.eu.mist.com"
              | None => "api.mist.com"
              end in
  site_data ← read_csv "sites.csv";
  let mist_api := MistAPIToken host org mist_api_key in
  let mist_connector := {| mistAPI := mist_api |} in
  api_verify ← try_except (verify_self mist_connector)
                 (λ e, print (PExn e);; mret (VBool false));
  if truthy api_verify then
    for_each site_data (process_site mist_connector);;
    print (PValue (VStr "Successful sites: "));;
    successful ← (λ s, (Ok (successful_sites s), s));
    print_names successful;;
    print (PValue (VStr "Failed Sites: "));;
    failed ← (λ s, (Ok (failed_sites s), s));
    print_names failed
  else mret ().

End Program.

(** ** The loop body in three stages *)

Section Stages.

Variable W : World.

(** The dictionary [get_google_geoinfo] builds from a geocoder answer. *)
Definition geo_dict (g : gaddr) : gmap string value :=
  <[ "country_code" := ga_country g ]>
    (<[ "latlng" := VDict (<[ "lng" := ga_lng g ]> {[ "lat" := ga_lat g ]}) ]>
       {[ "address" := ga_address g ]}).

(** What [get_google_timezone] returns for an answer of the time zone
    service. *)
Definition timezone_of (r : option response) : value :=
  match r with
  | Some resp =>
      match json resp with
      | Some data =>
          match getitem data "timeZoneId" with
          | Ok tz => tz
          | Raise _ => VNone
          end
      | None => VNone
      end
  | None => VNone
  end.

(** Lines 217 to 219: geocode, name, time zone. *)
Definition front (site : csv_row) : M value :=
  address ← lift (row_getitem site "site_address");
  body ← get_google_geoinfo W (cell_value address);
  name ← lift (row_getitem site "site_name");
  body ← lift (setitem body "name" (cell_value name));
  latlng ← lift (getitem body "latlng");
  lat ← lift (getitem latlng "lat");
  latlng ← lift (getitem body "latlng");
  lng ← lift (getitem latlng "lng");
  timezone ← get_google_timezone W lat lng;
  lift (setitem body "timezone" timezone).

(** Lines 220 and 221: the optional template id. *)
Definition template_step (mist_connector : Mist) (site : csv_row)
    (body : value) : M value :=
  rf_template_name ← lift (row_getitem site "rf_template_name");
  if bool_decide (rf_template_name ≠ Some "") then
    rf_template_name ← lift (row_getitem site "rf_template_name");
    rf_template ← get_rftemplate_by_name W mist_connector rf_template_name;
    id ← lift (getitem rf_template "id");
    lift (setitem body "rftemplate_id" id)
  else mret body.

(** The time zone call of the first stage and the time zone it obtains,
    from the calls made before the row. *)
Definition front_timezone_call (h : list call) (a : option string) (g : gaddr)
  : call :=
  TimezoneGet (ga_lat g) (ga_lng g)
    (time_time W (h ++ [GeocoderGoogle (cell_value a)])) (google_api_key W).

Definition front_timezone (h : list call) (a : option string) (g : gaddr)
  : value :=
  let h1 := h ++ [GeocoderGoogle (cell_value a)] in
  timezone_of
    (timezone_get W h1 (ga_lat g) (ga_lng g) (time_time W h1) (google_api_key W)).

(** Lines 222 to 227: print, POST, classify. *)
Definition submit (mist_connector : Mist) (body : value) : M unit :=
  print (PValue body);;
  results ← create_site W mist_connector body;
  status ← lift (get_status_code results);
  if status =? 200 then append_successful body else append_failed body.

(** Lines 229 to 234: the two summaries. *)
Definition summary : M unit :=
  print (PValue (VStr "Successful sites: "));;
  successful ← (λ s, (Ok (successful_sites s), s));
  print_names successful;;
  print (PValue (VStr "Failed Sites: "));;
  failed ← (λ s, (Ok (failed_sites s), s));
  print_names failed.

End Stages.

(** The client [main] builds from the command line. *)
Definition connector (argv : Namespace) : Mist :=
  {| mistAPI :=
       MistAPIToken
         (match arg_mist_europe argv with
          | Some _ => "api.eu.mist.com"
          | None => "api.mist.com"
          end)
         (arg_mist_org argv) (arg_mist_api_key argv) |}.

Definition token_header (argv : Namespace) : gmap string value :=
  {[ "Authorization" := VStr ("Token " +:+ arg_mist_api_key argv) ]}.

(** The state in which [main] calls [verify_self]. *)
Definition before_verify (lines : list (list string)) (s : state) : state :=
  log_print (PRows (DictReader lines)) (clear_sites s).

(** The URL a client method requests. *)
Definition full_url (mc : Mist) (url : string) : string :=
  "https://" +:+ host (mistAPI mc) +:+ url.

(** The headers every request of a token client carries. *)
Definition request_headers (hd : gmap string value) : gmap string value :=
  hd ∪ content_type.

(** [steps s s' new]: from [s] to [s'] exactly the calls [new] were made
    and the outcome lists were left alone. *)
Definition steps (s s' : state) (new : list call) : Prop :=
  calls s' = calls s ++ new ∧
  successful_sites s' = successful_sites s ∧
  failed_sites s' = failed_sites s.

Definition is_post (c : call) : bool :=
  match c with
  | RequestsPost _ _ _ => true
  | _ => false
  end.

Definition is_get (c : call) : bool :=
  match c with
  | RequestsGet _ _ => true
  | _ => false
  end.

(** The body after line 219: geocoder result, name, time zone. *)
Definition site_body (n : option string) (g : gaddr) (tz : value)
  : gmap string value :=
  <[ "timezone" := tz ]> (<[ "name" := cell_value n ]> (geo_dict g)).

(** What [get_rf_templates] returns for an answer of the listing. *)
Definition templates_of (r : option response) : value :=
  match call_json r with
  | Ok v => v
  | Raise _ => VNone
  end.

(** What [get_rftemplate_by_name] returns for an answer of the listing. *)
Definition resolve (r : option response) (rf_template_name : option string)
  : result value :=
  match iter_items (templates_of r) with
  | Ok items => next_named items rf_template_name
  | Raise e => Raise e
  end.

(** A call that is neither a GET nor a POST to the Mist API. *)
Definition not_mist (c : call) : Prop := is_get c = false ∧ is_post c = false.

(** The header the comment at the top of the script documents. *)
Definition documented_header : list string :=
  ["site_name"; "site_address"; "site_groups"; "rf_template_id"].

(** The record with column [k] set to [c]. *)
Definition set_column (k : string) (c : option string) (site : csv_row)
  : csv_row :=
  {| row_fields := <[k:=c]> (row_fields site); row_rest := row_rest site |}.

(** An item of the template listing that has a name, and not the one asked
    for. *)
Definition named_other (c : option string) (item : value) : Prop :=
  ∃ v, getitem item "name" = Ok v ∧ eq_cell v c = false.

(** The template step goes through from history [h]: the name is empty, or
    the listing resolves it to a template that has an id. *)
Definition template_completes (W : World) (mc : Mist)
    (hd : gmap string value) (c : option string) (h : list call) : Prop :=
  c = Some "" ∨
  (c ≠ Some "" ∧
   ∃ rf_template id,
     resolve (requests_get W h (full_url mc (rftemplates_url mc))
                (request_headers hd)) c = Ok rf_template ∧
     getitem rf_template "id" = Ok id).

(** A row every stage of which goes through, whatever was called before:
    the three columns are present, the geocoder answers, the template step
    completes and the POST yields a response. *)
Definition row_completes (W : World) (mc : Mist) (hd : gmap string value)
    (site : csv_row) : Prop :=
  ∃ a n c,
    row_fields site !! "site_address" = Some a ∧
    row_fields site !! "site_name" = Some n ∧
    row_fields site !! "rf_template_name" = Some c ∧
    (∀ h, is_Some (geocoder_google W h (cell_value a))) ∧
    (∀ h, template_completes W mc hd c h) ∧
    (∀ h body,
       is_Some (requests_post W h (full_url mc (sites_url mc))
                  (request_headers hd) body)).

(** An outcome: the submission body and whether it succeeded.  It belongs
    to a row when the body carries the row's name. *)
Definition outcome_of (site : csv_row) (o : value * bool) : Prop :=
  ∃ n,
    row_fields site !! "site_name" = Some n ∧
    getitem o.1 "name" = Ok (cell_value n).

Definition succeeded (outs : list (value * bool)) : list value :=
  (filter (λ o, o.2 = true) outs).*1.

Definition failed (outs : list (value * bool)) : list value :=
  (filter (λ o, o.2 = false) outs).*1.

(** The submission as the specification words it: the record's name, the
    geocoder's address, coordinates and country, and the time zone. *)
Definition spec_submission (n : option string) (g : gaddr) (tz : value)
  : gmap string value :=
  list_to_map
    [("name", cell_value n);
     ("address", ga_address g);
     ("latlng", VDict (list_to_map [("lat", ga_lat g); ("lng", ga_lng g)]));
     ("country_code", ga_country g);
     ("timezone", tz)].

(** ** Example runs *)

Definition named_header : list string :=
  ["site_name"; "site_address"; "site_groups"; "rf_template_name"].

Definition hq_address : string := "1 Infinite Loop, Cupertino, CA".

(** The headquarters row, without a template. *)
Definition hq_cells : list string := ["HQ"; hq_address; ""; ""].

(** A branch row that asks for the template [Branch]. *)
Definition branch_cells : list string :=
  ["Branch 12"; "500 Main St, Springfield, IL"; "retail"; "Branch"].

(** A row that asks for a template the platform does not have. *)
Definition guest_cells : list string :=
  ["Lobby"; "12 Rue de la Paix, Paris"; ""; "Guest"].

Definition hq_geo : gaddr :=
  {| ga_address := VStr "1 Infinite Loop, Cupertino, CA 95014, USA";
     ga_lat := VNum 37.33;
     ga_lng := VNum (-122.03);
     ga_country := VStr "US" |}.

(** The geocoder answer of the specification's example: coordinates and
    country, no address. *)
Definition bare_geo : gaddr :=
  {| ga_address := VNone;
     ga_lat := VNum 37.33;
     ga_lng := VNum (-122.03);
     ga_country := VStr "US" |}.

Definition los_angeles : response :=
  {| status_code := 200;
     json := Some (VDict {[ "timeZoneId" := VStr "America/Los_Angeles" ]}) |}.

(** Two templates that share the name [Branch]. *)
Definition rf_template (name id : string) : value :=
  VDict (<[ "id" := VStr id ]> {[ "name" := VStr name ]}).

Definition branch_templates : value :=
  VList [rf_template "Office" "rf-0";
         rf_template "Branch" "rf-1";
         rf_template "Branch" "rf-2"].

Definition status_only (code : Z) : response :=
  {| status_code := code; json := Some (VDict ∅) |}.

(** A world with fixed answers: the file, the geocoder, the time zone
    service, the status of [/api/v1/self] (every other GET is the template
    listing) and the answer to a POST. *)
Definition fixed_world (lines : list (list string)) (geo : option gaddr)
    (tz : option response) (self_status : Z) (post : option response)
  : World :=
  {| google_api_key := "g-key";
     csv_file := λ _, Some lines;
     time_time := λ _, 1700000000;
     geocoder_google := λ _ _, geo;
     timezone_get := λ _ _ _ _ _, tz;
     requests_get := λ _ url _,
       if String.eqb url "https://api.mist.com/api/v1/self"
       then Some (status_only self_status)
       else Some {| status_code := 200; json := Some branch_templates |};
     requests_post := λ _ _ _ _, post |}.

Definition argv0 : Namespace :=
  {| arg_mist_api_key := "secret"; arg_mist_org := "org-1";
     arg_mist_europe := None |}.

Definition fresh : state :=
  {| calls := []; console := []; successful_sites := []; failed_sites := [] |}.

(** The state after the credential check of a run from [fresh]. *)
Definition verified (W : World) (lines : list (list string)) : state :=
  (verify_self W (connector argv0) (before_verify lines fresh)).2.

(** Everything works. *)
Definition two_sites : list (list string) :=
  [named_header; hq_cells; branch_cells].

Definition world_up : World :=
  fixed_world two_sites (Some hq_geo) (Some los_angeles) 200
    (Some (status_only 200)).

(** The token is rejected. *)
Definition world_denied : World :=
  fixed_world two_sites (Some hq_geo) (Some los_angeles) 401
    (Some (status_only 200)).

(** The POST never gets a response. *)
Definition hq_only : list (list string) := [named_header; hq_cells].

Definition world_post_down : World :=
  fixed_world hq_only (Some hq_geo) (Some los_angeles) 200 None.

(** The geocoder raises. *)
Definition world_geocoder_down : World :=
  fixed_world two_sites None (Some los_angeles) 200 (Some (status_only 200)).

(** A row names a template the listing does not have. *)
Definition guest_then_hq : list (list string) :=
  [named_header; guest_cells; hq_cells].

Definition world_guest : World :=
  fixed_world guest_then_hq (Some hq_geo) (Some los_angeles) 200
    (Some (status_only 200)).

(** The time zone service is unreachable. *)
Definition world_no_timezone : World :=
  fixed_world hq_only (Some hq_geo) None 200 (Some (status_only 200)).

Definition world_no_timezone_guest : World :=
  fixed_world guest_then_hq (Some hq_geo) None 200 (Some (status_only 200)).

Definition world_no_timezone_post_down : World :=
  fixed_world hq_only (Some hq_geo) None 200 None.

(** The file has the documented header. *)
Definition documented_file : list (list string) :=
  [documented_header; hq_cells].

Definition world_documented : World :=
  fixed_world documented_file (Some bare_geo) (Some los_angeles) 200
    (Some (status_only 200)).

(** The example of the specification, with the column the script reads. *)
Definition world_example : World :=
  fixed_world hq_only (Some bare_geo) (Some los_angeles) 200
    (Some (status_only 200)).

(** The submission the specification's example states. *)
Definition stated_submission : gmap string value :=
  list_to_map
    [("name", VStr "HQ");
     ("latlng", VDict (list_to_map [("lat", VNum 37.33);
                                    ("lng", VNum (-122.03))]));
     ("country_code", VStr "US");
     ("timezone", VStr "America/Los_Angeles")].

(** A file without the address and template columns. *)
Definition short_file : list (list string) :=
  [["site_name"; "site_groups"]; ["HQ"; "campus"]].

Definition world_short : World :=
  fixed_world short_file (Some hq_geo) (Some los_angeles) 200
    (Some (status_only 200)).

(** ** Shapes of a run *)

(** The two requests the loop sends to the Mist API. *)
Definition listing_get (mc : Mist) (hd : gmap string value) : call :=
  RequestsGet (full_url mc (rftemplates_url mc)) (request_headers hd).

Definition sites_post (mc : Mist) (hd : gmap string value) (body : value)
  : call :=
  RequestsPost (full_url mc (sites_url mc)) (request_headers hd) body.

(** The bodies of the POSTs in a list of calls, in order. *)
Definition posted_bodies (l : list call) : list value :=
  omap (λ c, match c with
             | RequestsPost _ _ body => Some body
             | _ => None
             end) l.

(** A body that carries a name. *)
Definition has_name (body : value) : Prop :=
  ∃ v, getitem body "name" = Ok v.

(** The calls one row can cause, with the bodies posted among them: the
    geocoder, then the time zone service, then at most one template listing,
    then at most one POST. *)
Inductive row_calls (mc : Mist) (hd : gmap string value)
  : list call → list value → Prop :=
| row_calls_none :
    row_calls mc hd [] []
| row_calls_geocoder a :
    row_calls mc hd [GeocoderGoogle a] []
| row_calls_timezone a lat lng ts key :
    row_calls mc hd [GeocoderGoogle a; TimezoneGet lat lng ts key] []
| row_calls_listing a lat lng ts key :
    row_calls mc hd
      [GeocoderGoogle a; TimezoneGet lat lng ts key; listing_get mc hd] []
| row_calls_post a lat lng ts key body :
    row_calls mc hd
      [GeocoderGoogle a; TimezoneGet lat lng ts key; sites_post mc hd body]
      [body]
| row_calls_listing_post a lat lng ts key body :
    row_calls mc hd
      [GeocoderGoogle a; TimezoneGet lat lng ts key; listing_get mc hd;
       sites_post mc hd body]
      [body].

(** A call the loop may make with client [mc]. *)
Definition loop_call (mc : Mist) (hd : gmap string value) (c : call) : Prop :=
  match c with
  | GeocoderGoogle _ | TimezoneGet _ _ _ _ => True
  | RequestsGet url h =>
      url = full_url mc (rftemplates_url mc) ∧ h = request_headers hd
  | RequestsPost url h _ =>
      url = full_url mc (sites_url mc) ∧ h = request_headers hd
  end.

(** The host [main] selects: the European one whenever [-e] was given. *)
Definition selected_host (argv : Namespace) : string :=
  match arg_mist_europe argv with
  | None => "api.mist.com"
  | Some _ => "api.eu.mist.com"
  end.

(** A call [main] may make: besides those of the loop, the credential
    check. *)
Definition main_call (argv : Namespace) (c : call) : Prop :=
  match c with
  | GeocoderGoogle _ | TimezoneGet _ _ _ _ => True
  | RequestsGet url h =>
      (url = "https://" +:+ selected_host argv +:+ "/api/v1/self" ∨
       url = "https://" +:+ selected_host argv +:+ "/api/v1/orgs/"
               +:+ arg_mist_org argv +:+ "/rftemplates") ∧
      h = {[ "content-type" := VStr "application/json";
             "Authorization" := VStr ("Token " +:+ arg_mist_api_key argv) ]}
  | RequestsPost url h _ =>
      url = "https://" +:+ selected_host argv +:+ "/api/v1/orgs/"
              +:+ arg_mist_org argv +:+ "/sites" ∧
      h = {[ "content-type" := VStr "application/json";
             "Authorization" := VStr ("Token " +:+ arg_mist_api_key argv) ]}
  end.

(** What the console shows for a list of bodies: their names. *)
Definition printed_names (sites : list value) : list printable :=
  omap (λ site, match getitem site "name" with
                | Ok v => Some (PValue v)
                | Raise _ => None
                end) sites.

(** Two records that agree on the three columns the loop reads. *)
Definition same_read_columns (site site' : csv_row) : Prop :=
  row_fields site !! "site_address" = row_fields site' !! "site_address" ∧
  row_fields site !! "site_name" = row_fields site' !! "site_name" ∧
  row_fields site !! "rf_template_name" =
    row_fields site' !! "rf_template_name".

(** ** Percent-encoding *)

From Stdlib Require Import Ascii.

(** [urllib.parse.quote] on the UTF-8 bytes of a string, which is how a
    [string] is read here: a byte is kept when it is an ASCII letter, a
    digit, one of [_.-~] or listed in [safe], and is written [%XX], in upper
    case hexadecimal, otherwise. *)
Definition always_safe (c : Ascii.ascii) : bool :=
  let n := Ascii.N_of_ascii c in
  ((65 <=? n) && (n <=? 90) || (97 <=? n) && (n <=? 122) ||
   (48 <=? n) && (n <=? 57) ||
   Ascii.eqb c "_"%char || Ascii.eqb c "."%char || Ascii.eqb c "-"%char ||
   Ascii.eqb c "~"%char)%N.

Definition hex_digit (n : N) : Ascii.ascii :=
  Ascii.ascii_of_N (if (n <? 10)%N then 48 + n else 55 + n)%N.

Definition quote_byte (safe : list Ascii.ascii) (c : Ascii.ascii) : string :=
  if always_safe c || bool_decide (c ∈ safe) then String c ""
  else
    String "%"%char
      (String (hex_digit (Ascii.N_of_ascii c / 16)%N)
         (String (hex_digit (Ascii.N_of_ascii c mod 16)%N) "")).

Fixpoint quote (safe : list Ascii.ascii) (s : string) : string :=
  match s with
  | "" => ""
  | String c s' => quote_byte safe c +:+ quote safe s'
  end.

(** [encode_address]: [quote] with its default [safe='/']. *)
Definition encode_address (address : string) : string :=
  quote ["/"%char] address.


(** The value of a hexadecimal digit, and the reading of an encoded
    string back into bytes. *)
Definition hex_value (c : Ascii.ascii) : N :=
  let n := Ascii.N_of_ascii c in
  (if n <? 58 then n - 48 else n - 55)%N.

Fixpoint unquote (s : string) : string :=
  match s with
  | "" => ""
  | String c rest =>
      if Ascii.eqb c "%"%char then
        match rest with
        | String h (String l rest') =>
            String (Ascii.ascii_of_N (16 * hex_value h + hex_value l)%N)
              (unquote rest')
        | _ => String c rest
        end
      else String c (unquote rest)
  end.

(** ** More example runs *)

(** A world like [world_up] in which the template listing is answered by
    [listing], and one whose [sites.csv] cannot be opened. *)
Definition listing_world (lines : list (list string))
    (listing : option response) : World :=
  {| google_api_key := "g-key";
     csv_file := λ _, Some lines;
     time_time := λ _, 1700000000;
     geocoder_google := λ _ _, Some hq_geo;
     timezone_get := λ _ _ _ _ _, Some los_angeles;
     requests_get := λ _ url _,
       if String.eqb url "https://api.mist.com/api/v1/self"
       then Some (status_only 200)
       else listing;
     requests_post := λ _ _ _ _, Some (status_only 200) |}.

Definition world_no_file : World :=
  {| google_api_key := "g-key";
     csv_file := λ _, None;
     time_time := λ _, 1700000000;
     geocoder_google := λ _ _, Some hq_geo;
     timezone_get := λ _ _ _ _ _, Some los_angeles;
     requests_get := λ _ _ _, Some (status_only 200);
     requests_post := λ _ _ _ _, Some (status_only 200) |}.

Definition branch_only : list (list string) := [named_header; branch_cells].

(** The listing request times out. *)
Definition world_listing_down : World := listing_world branch_only None.

(** The listing answers with an error object. *)
Definition error_object : response :=
  {| status_code := 403;
     json := Some (VDict {[ "detail" := VStr "forbidden" ]}) |}.

Definition world_listing_error : World :=
  listing_world branch_only (Some error_object).

(** The listing starts with an item without a name. *)
Definition nameless_then_branch : response :=
  {| status_code := 200;
     json := Some (VList [VDict {[ "id" := VStr "rf-7" ]};
                          rf_template "Branch" "rf-1"]) |}.

Definition world_nameless : World :=
  listing_world branch_only (Some nameless_then_branch).

(** The template asked for has no id. *)
Definition branch_without_id : response :=
  {| status_code := 200;
     json := Some (VList [VDict {[ "name" := VStr "Branch" ]}]) |}.

Definition world_no_id : World :=
  listing_world branch_only (Some branch_without_id).

(** A row that stops after the third column. *)
Definition short_cells : list string := ["HQ"; hq_address; ""].

(** A header followed by blank lines only. *)
Definition header_only : list (list string) := [named_header; []; []].

Definition world_header_only : World :=
  fixed_world header_only (Some hq_geo) (Some los_angeles) 200
    (Some (status_only 200)).

(** A state with one site in each list. *)
Definition reported : state :=
  {| calls := []; console := [];
     successful_sites := [VDict (site_body (Some "HQ") hq_geo VNone)];
     failed_sites := [VDict (site_body (Some "Lobby") hq_geo VNone)] |}.

(** * Properties *)

(** ** The stages of the loop body *)

Section Properties.
Context (W : World).

Lemma steps_refl s : steps s s [].
Proof. unfold steps. by rewrite app_nil_r. Qed.

Lemma steps_trans s1 s2 s3 l1 l2 :
  steps s1 s2 l1 → steps s2 s3 l2 → steps s1 s3 (l1 ++ l2).
Proof.
  intros (H1 & H2 & H3) (H4 & H5 & H6). unfold steps.
  rewrite H4, H1, H5, H2, H6, H3, app_assoc. done.
Qed.

Lemma steps_print p s : steps s (log_print p s) [].
Proof. unfold steps. simpl. by rewrite app_nil_r. Qed.

Lemma steps_call c s : steps s (log_call c s) [c].
Proof. by unfold steps. Qed.

(** Case analysis on a scrutinee that has no [match] inside. *)
Ltac leaf x :=
  lazymatch x with
  | context [match ?y with _ => _ end] => leaf y
  | _ => x
  end.

Ltac case_leaf :=
  match goal with
  | |- context [match ?x with _ => _ end] =>
      let y := leaf x in destruct y eqn:?
  end.

Ltac run_cases :=
  unfold mbind, M_bind, mret, M_ret, lift;
  repeat (cbv beta iota; first [reflexivity | case_leaf]).

Lemma process_site_stages mc site s :
  process_site W mc site s =
    (body ← front W site; body ← template_step W mc site body; submit W mc body) s.
Proof.
  unfold process_site, front, template_step, submit. run_cases.
Qed.

Lemma http_get_eq mc hd url s :
  header (mistAPI mc) = VDict hd →
  http_get W mc url s =
    let c := RequestsGet (full_url mc url) (request_headers hd) in
    match requests_get W (calls s) (full_url mc url) (request_headers hd) with
    | Some r => (Ok (Some r), log_call c s)
    | None => (Ok None, log_print (PExn RequestException) (log_call c s))
    end.
Proof.
  intros Hh. unfold http_get, try_except, mbind, M_bind, lift, external, dict_merge.
  rewrite Hh. cbn -[union]. fold (full_url mc url) (request_headers hd).
  destruct (requests_get _ _ _ _); reflexivity.
Qed.

Lemma http_post_eq mc hd url body s :
  header (mistAPI mc) = VDict hd →
  http_post W mc url body s =
    let c := RequestsPost (full_url mc url) (request_headers hd) body in
    match requests_post W (calls s) (full_url mc url) (request_headers hd) body with
    | Some r => (Ok (Some r), log_call c s)
    | None => (Ok None, log_print (PExn RequestException) (log_call c s))
    end.
Proof.
  intros Hh. unfold http_post, try_except, mbind, M_bind, lift, external, dict_merge.
  rewrite Hh. cbn -[union]. fold (full_url mc url) (request_headers hd).
  destruct (requests_post _ _ _ _ _); reflexivity.
Qed.

Lemma get_google_geoinfo_eq a s :
  get_google_geoinfo W a s =
    match geocoder_google W (calls s) a with
    | Some g => (Ok (VDict (geo_dict g)), log_call (GeocoderGoogle a) s)
    | None =>
        (Ok VNone,
         log_print (PExn GeocoderException) (log_call (GeocoderGoogle a) s))
    end.
Proof.
  unfold get_google_geoinfo, try_except, external. run_cases.
Qed.

Lemma get_google_timezone_eq lat lng s :
  let ts := time_time W (calls s) in
  let key := google_api_key W in
  ∃ s',
    get_google_timezone W lat lng s =
      (Ok (timezone_of (timezone_get W (calls s) lat lng ts key)), s') ∧
    steps s s' [TimezoneGet lat lng ts key].
Proof.
  intros ts key.
  unfold get_google_timezone, try_except, external, time_now, timezone_of,
    call_json, print, mbind, M_bind, mret, M_ret, lift.
  cbv beta iota. fold ts key.
  destruct (timezone_get W (calls s) lat lng ts key) as [resp|].
  - destruct (json resp) as [data|].
    + destruct (getitem data "timeZoneId"); eexists; (split; [reflexivity|]);
        unfold steps; simpl; done.
    + eexists; (split; [reflexivity|]); unfold steps; simpl; done.
  - eexists; (split; [reflexivity|]); unfold steps; simpl; done.
Qed.

Lemma get_rf_templates_eq mc hd s :
  header (mistAPI mc) = VDict hd →
  let url := full_url mc (rftemplates_url mc) in
  ∃ s',
    get_rf_templates W mc s =
      (Ok (templates_of (requests_get W (calls s) url (request_headers hd))), s') ∧
    steps s s' [RequestsGet url (request_headers hd)].
Proof.
  intros Hh url. unfold get_rf_templates, try_except, mbind, M_bind.
  rewrite (http_get_eq _ _ _ _ Hh). cbv zeta. fold url.
  unfold templates_of, lift, print, mret, M_ret.
  destruct (requests_get W (calls s) url (request_headers hd)) as [resp|];
    simpl.
  - destruct (json resp); eexists; (split; [reflexivity|]);
      unfold steps; simpl; done.
  - eexists; (split; [reflexivity|]); unfold steps; simpl; done.
Qed.

Lemma get_rftemplate_by_name_eq mc hd c s :
  header (mistAPI mc) = VDict hd →
  let url := full_url mc (rftemplates_url mc) in
  ∃ s',
    get_rftemplate_by_name W mc c s =
      (resolve (requests_get W (calls s) url (request_headers hd)) c, s') ∧
    steps s s' [RequestsGet url (request_headers hd)].
Proof.
  intros Hh url.
  destruct (get_rf_templates_eq mc hd s Hh) as (s' & Heq & Hst).
  exists s'. split; [|exact Hst].
  unfold get_rftemplate_by_name, mbind, M_bind, lift, resolve.
  rewrite Heq. fold url. cbv beta iota.
  destruct (iter_items _); reflexivity.
Qed.

Lemma row_getitem_Some site k c :
  row_fields site !! k = Some c → row_getitem site k = Ok c.
Proof. intros H. unfold row_getitem. by rewrite H. Qed.

Lemma row_getitem_None site k :
  row_fields site !! k = None → row_getitem site k = Raise (KeyError k).
Proof. intros H. unfold row_getitem. by rewrite H. Qed.

Lemma getitem_named_latlng n g :
  getitem (VDict (<[ "name" := n ]> (geo_dict g))) "latlng" =
    Ok (VDict (<[ "lng" := ga_lng g ]> {[ "lat" := ga_lat g ]})).
Proof. unfold getitem, geo_dict. by simplify_map_eq. Qed.

Lemma getitem_lat (lat lng : value) :
  getitem (VDict (<[ "lng" := lng ]> {[ "lat" := lat ]})) "lat" = Ok lat.
Proof. unfold getitem. by simplify_map_eq. Qed.

Lemma getitem_lng (lat lng : value) :
  getitem (VDict (<[ "lng" := lng ]> {[ "lat" := lat ]})) "lng" = Ok lng.
Proof. unfold getitem. by simplify_map_eq. Qed.

Lemma front_ok site a n g s :
  row_fields site !! "site_address" = Some a →
  row_fields site !! "site_name" = Some n →
  geocoder_google W (calls s) (cell_value a) = Some g →
  ∃ s',
    front W site s = (Ok (VDict (site_body n g (front_timezone W (calls s) a g))), s') ∧
    steps s s' [GeocoderGoogle (cell_value a); front_timezone_call W (calls s) a g].
Proof.
  intros Ha Hn Hg. unfold front, mbind, M_bind, lift.
  rewrite (row_getitem_Some _ _ _ Ha), (row_getitem_Some _ _ _ Hn).
  cbv beta iota. rewrite get_google_geoinfo_eq, Hg.
  unfold setitem at 1. cbv beta iota.
  rewrite getitem_named_latlng. cbv beta iota.
  rewrite getitem_lat, getitem_lng. cbv beta iota.
  destruct (get_google_timezone_eq (ga_lat g) (ga_lng g)
              (log_call (GeocoderGoogle (cell_value a)) s)) as (s' & Heq & Hst).
  rewrite Heq. exists s'. split; [reflexivity|].
  apply (steps_trans _ _ _ [_] [_] (steps_call _ s) Hst).
Qed.

Lemma front_geocoder_raises site a n s :
  row_fields site !! "site_address" = Some a →
  row_fields site !! "site_name" = Some n →
  geocoder_google W (calls s) (cell_value a) = None →
  ∃ s',
    front W site s = (Raise TypeError, s') ∧
    steps s s' [GeocoderGoogle (cell_value a)].
Proof.
  intros Ha Hn Hg. unfold front, mbind, M_bind, lift.
  rewrite (row_getitem_Some _ _ _ Ha), (row_getitem_Some _ _ _ Hn).
  cbv beta iota. rewrite get_google_geoinfo_eq, Hg.
  eexists. split; [reflexivity|].
  apply (steps_trans _ _ _ [_] [] (steps_call _ s) (steps_print _ _)).
Qed.

Lemma template_step_empty mc site body s :
  row_fields site !! "rf_template_name" = Some (Some "") →
  template_step W mc site body s = (Ok body, s).
Proof.
  intros Hc. unfold template_step, mbind, M_bind, lift.
  by rewrite (row_getitem_Some _ _ _ Hc).
Qed.

Lemma template_step_no_column mc site body s :
  row_fields site !! "rf_template_name" = None →
  template_step W mc site body s = (Raise (KeyError "rf_template_name"), s).
Proof.
  intros Hc. unfold template_step, mbind, M_bind, lift.
  by rewrite (row_getitem_None _ _ Hc).
Qed.

Lemma template_step_named mc hd site c d s :
  header (mistAPI mc) = VDict hd →
  row_fields site !! "rf_template_name" = Some c →
  c ≠ Some "" →
  let url := full_url mc (rftemplates_url mc) in
  ∃ s',
    template_step W mc site (VDict d) s =
      (match resolve (requests_get W (calls s) url (request_headers hd)) c with
       | Ok rf_template =>
           match getitem rf_template "id" with
           | Ok id => Ok (VDict (<[ "rftemplate_id" := id ]> d))
           | Raise e => Raise e
           end
       | Raise e => Raise e
       end, s') ∧
    steps s s' [RequestsGet url (request_headers hd)].
Proof.
  intros Hh Hc Hne url. unfold template_step, mbind, M_bind, lift.
  rewrite (row_getitem_Some _ _ _ Hc). cbv beta iota.
  rewrite bool_decide_true by done.
  destruct (get_rftemplate_by_name_eq mc hd c s Hh) as (s' & Heq & Hst).
  rewrite Heq. fold url. exists s'. split; [|exact Hst].
  destruct (resolve _ c) as [t|]; [|reflexivity].
  destruct (getitem t "id"); reflexivity.
Qed.

Lemma submit_response mc hd body r s :
  header (mistAPI mc) = VDict hd →
  let url := full_url mc (sites_url mc) in
  requests_post W (calls s) url (request_headers hd) body = Some r →
  ∃ s',
    submit W mc body s = (Ok (), s') ∧
    calls s' = calls s ++ [RequestsPost url (request_headers hd) body] ∧
    successful_sites s' =
      successful_sites s ++ (if status_code r =? 200 then [body] else []) ∧
    failed_sites s' =
      failed_sites s ++ (if status_code r =? 200 then [] else [body]).
Proof.
  intros Hh url Hr. unfold submit, create_site, mbind, M_bind, print, lift.
  rewrite (http_post_eq _ _ _ _ _ Hh). cbv zeta. fold url.
  change (calls (log_print (PValue body) s)) with (calls s). rewrite Hr.
  simpl. destruct (status_code r =? 200); eexists;
    (split; [reflexivity|]); simpl; by rewrite !app_nil_r.
Qed.

Lemma submit_no_response mc hd body s :
  header (mistAPI mc) = VDict hd →
  let url := full_url mc (sites_url mc) in
  requests_post W (calls s) url (request_headers hd) body = None →
  ∃ s',
    submit W mc body s = (Raise AttributeError, s') ∧
    steps s s' [RequestsPost url (request_headers hd) body].
Proof.
  intros Hh url Hr. unfold submit, create_site, mbind, M_bind, print, lift.
  rewrite (http_post_eq _ _ _ _ _ Hh). cbv zeta. fold url.
  change (calls (log_print (PValue body) s)) with (calls s). rewrite Hr.
  simpl. eexists. split; [reflexivity|]. by unfold steps.
Qed.

Lemma verify_self_eq mc hd s :
  header (mistAPI mc) = VDict hd →
  let url := full_url mc "/api/v1/self" in
  let c := RequestsGet url (request_headers hd) in
  verify_self W mc s =
    match requests_get W (calls s) url (request_headers hd) with
    | Some r =>
        (Ok (if status_code r =? 200 then VBool true else VNone), log_call c s)
    | None =>
        (Ok (VBool false),
         log_print (PExn AttributeError)
           (log_print (PExn RequestException) (log_call c s)))
    end.
Proof.
  intros Hh url c. unfold verify_self, try_except, mbind, M_bind, lift.
  rewrite (http_get_eq _ _ _ _ Hh). cbv zeta. fold url c.
  destruct (requests_get W (calls s) url (request_headers hd)) as [r|];
    simpl; [|reflexivity].
  destruct (status_code r =? 200); reflexivity.
Qed.

Lemma connector_header argv :
  header (mistAPI (connector argv)) = VDict (token_header argv).
Proof. reflexivity. Qed.

Lemma main_eq argv lines s :
  csv_file W "sites.csv" = Some lines →
  main W argv s =
    match verify_self W (connector argv) (before_verify lines s) with
    | (Ok api_verify, s') =>
        if truthy api_verify then
          (for_each (DictReader lines) (process_site W (connector argv));;
           summary) s'
        else (Ok (), s')
    | (Raise e, s') => (Ok (), log_print (PExn e) s')
    end.
Proof.
  intros Hcsv.
  unfold main, read_csv, reset_sites, try_except, mbind, M_bind, lift.
  rewrite Hcsv. cbv beta iota zeta.
  change (print (PRows (DictReader lines)) (clear_sites s))
    with (Ok (), before_verify lines s).
  cbv beta iota. fold (connector argv).
  unfold mret, M_ret. cbv beta iota.
  destruct (verify_self W (connector argv) (before_verify lines s))
    as [[v|e] s'].
  - destruct (truthy v); reflexivity.
  - reflexivity.
Qed.

End Properties.

(** ** Runs that stop early *)

Section Claims.
Context (W : World).

Lemma for_each_app {A} (l1 l2 : list A) (f : A → M unit) s :
  for_each (l1 ++ l2) f s =
    match for_each l1 f s with
    | (Ok _, s1) => for_each l2 f s1
    | (Raise e, s1) => (Raise e, s1)
    end.
Proof.
  revert s. induction l1 as [|x l1 IH]; intros s; [reflexivity|].
  simpl. unfold mbind, M_bind.
  destruct (f x s) as [[[]|e] s1]; [apply IH|reflexivity].
Qed.

Lemma for_each_raises {A} (pre post : list A) x (f : A → M unit) e s s1 s' :
  for_each pre f s = (Ok (), s1) →
  f x s1 = (Raise e, s') →
  for_each (pre ++ x :: post) f s = (Raise e, s').
Proof.
  intros Hpre Hx. rewrite for_each_app, Hpre. simpl.
  unfold mbind, M_bind. by rewrite Hx.
Qed.

Lemma process_site_front_raises mc site e s s' :
  front W site s = (Raise e, s') →
  process_site W mc site s = (Raise e, s').
Proof.
  intros H. rewrite process_site_stages. unfold mbind, M_bind. by rewrite H.
Qed.

Lemma main_loop_raises argv lines e s s0 s' :
  csv_file W "sites.csv" = Some lines →
  verify_self W (connector argv) (before_verify lines s) = (Ok (VBool true), s0) →
  for_each (DictReader lines) (process_site W (connector argv)) s0 = (Raise e, s') →
  main W argv s = (Raise e, s').
Proof.
  intros Hcsv Hv Hloop. rewrite (main_eq W _ _ _ Hcsv), Hv. simpl.
  unfold mbind, M_bind. by rewrite Hloop.
Qed.

(** C2: when [verify_self] does not return [True], [main] makes no POST:
    its only call is the GET of [/api/v1/self], and both outcome lists are
    empty when it returns. *)
Theorem unverified_run_processes_nothing argv lines s :
  csv_file W "sites.csv" = Some lines →
  (verify_self W (connector argv) (before_verify lines s)).1 ≠ Ok (VBool true) →
  ∃ s',
    main W argv s = (Ok (), s') ∧
    calls s' =
      calls s ++ [RequestsGet (full_url (connector argv) "/api/v1/self")
                    (request_headers (token_header argv))] ∧
    filter (λ c, is_post c = true) (calls s') =
      filter (λ c, is_post c = true) (calls s) ∧
    successful_sites s' = [] ∧
    failed_sites s' = [].
Proof.
  intros Hcsv Hv. rewrite (main_eq W _ _ _ Hcsv).
  rewrite (verify_self_eq W _ _ _ (connector_header argv)) in Hv |- *.
  cbv zeta in Hv |- *.
  destruct (requests_get W _ _ _) as [r|].
  - destruct (status_code r =? 200); [done|].
    eexists. split; [reflexivity|]. simpl.
    rewrite filter_app, filter_cons_False, filter_nil, app_nil_r by done. done.
  - eexists. split; [reflexivity|]. simpl.
    rewrite filter_app, filter_cons_False, filter_nil, app_nil_r by done. done.
Qed.

(** C7: when the geocoder raises for a row, [get_google_geoinfo] returns
    [None], the assignment [body['name'] = ...] raises [TypeError], and the
    whole run ends there: the row reaches neither outcome list and nothing
    is posted for it. *)
Theorem geocoder_failure_aborts_run argv lines pre site post a n s s0 s1 :
  csv_file W "sites.csv" = Some lines →
  DictReader lines = pre ++ site :: post →
  verify_self W (connector argv) (before_verify lines s) = (Ok (VBool true), s0) →
  for_each pre (process_site W (connector argv)) s0 = (Ok (), s1) →
  row_fields site !! "site_address" = Some a →
  row_fields site !! "site_name" = Some n →
  geocoder_google W (calls s1) (cell_value a) = None →
  ∃ s',
    (get_google_geoinfo W (cell_value a) s1).1 = Ok VNone ∧
    main W argv s = (Raise TypeError, s') ∧
    steps s1 s' [GeocoderGoogle (cell_value a)].
Proof.
  intros Hcsv Hrows Hv Hpre Ha Hn Hg.
  destruct (front_geocoder_raises W site a n s1 Ha Hn Hg) as (s' & Hf & Hst).
  exists s'. split; [|split; [|exact Hst]].
  - by rewrite get_google_geoinfo_eq, Hg.
  - apply (main_loop_raises _ _ _ _ _ _ Hcsv Hv). rewrite Hrows.
    apply (for_each_raises _ _ _ _ _ _ _ _ Hpre).
    by apply process_site_front_raises.
Qed.

Lemma site_body_no_template_id n g tz :
  site_body n g tz !! "rftemplate_id" = None.
Proof. unfold site_body, geo_dict. by simplify_map_eq. Qed.

(** Whatever the first stage does, it talks to Google only, and a body it
    returns has no template id yet. *)
Lemma front_cases site s :
  ∃ r s' new,
    front W site s = (r, s') ∧ steps s s' new ∧ Forall not_mist new ∧
    (∀ body, r = Ok body → ∃ d, body = VDict d ∧ d !! "rftemplate_id" = None).
Proof.
  destruct (row_fields site !! "site_address") as [a|] eqn:Ha.
  - destruct (row_fields site !! "site_name") as [n|] eqn:Hn.
    + destruct (geocoder_google W (calls s) (cell_value a)) as [g|] eqn:Hg.
      * destruct (front_ok W site a n g s Ha Hn Hg) as (s' & Hf & Hst).
        eexists _, s', _. split; [exact Hf|]. split; [exact Hst|].
        split; [by repeat constructor|].
        intros body [= <-]. eexists. split; [reflexivity|].
        apply site_body_no_template_id.
      * destruct (front_geocoder_raises W site a n s Ha Hn Hg) as (s' & Hf & Hst).
        eexists _, s', _. split; [exact Hf|]. split; [exact Hst|].
        split; [by repeat constructor|]. done.
    + unfold front, mbind, M_bind, lift.
      rewrite (row_getitem_Some _ _ _ Ha), (row_getitem_None _ _ Hn).
      cbv beta iota. rewrite get_google_geoinfo_eq.
      destruct (geocoder_google W (calls s) (cell_value a));
        eexists _, _, [GeocoderGoogle (cell_value a)];
        (split; [reflexivity|]); (split; [by unfold steps|]);
        (split; [by repeat constructor|]); done.
  - unfold front, mbind, M_bind, lift. rewrite (row_getitem_None _ _ Ha).
    eexists _, s, []. split; [reflexivity|]. split; [apply steps_refl|].
    split; [constructor|done].
Qed.

(** C3: a row whose template name is the empty string causes no GET at all,
    so no template listing, and every body posted for it lacks the key
    [rftemplate_id]; when the geocoder answers, exactly one such body is
    posted. *)
Theorem empty_template_name_skips_lookup mc hd site s :
  header (mistAPI mc) = VDict hd →
  row_fields site !! "rf_template_name" = Some (Some "") →
  ∃ r s' new,
    process_site W mc site s = (r, s') ∧
    calls s' = calls s ++ new ∧
    Forall (λ c, is_get c = false) new ∧
    (∀ url h body, RequestsPost url h body ∈ new →
       ∃ d, body = VDict d ∧ d !! "rftemplate_id" = None) ∧
    (∀ a n g,
       row_fields site !! "site_address" = Some a →
       row_fields site !! "site_name" = Some n →
       geocoder_google W (calls s) (cell_value a) = Some g →
       new = [GeocoderGoogle (cell_value a);
              front_timezone_call W (calls s) a g;
              RequestsPost (full_url mc (sites_url mc)) (request_headers hd)
                (VDict (site_body n g (front_timezone W (calls s) a g)))]).
Proof.
  intros Hh Hc.
  destruct (front_cases site s) as (r & s1 & new & Hf & Hst & Hnew & Hbody).
  rewrite process_site_stages. unfold mbind, M_bind. rewrite Hf.
  destruct r as [body|e].
  - destruct (Hbody body eq_refl) as (d & -> & Hd).
    rewrite (template_step_empty W _ _ _ _ Hc).
    pose (url := full_url mc (sites_url mc)).
    pose (post := RequestsPost url (request_headers hd) (VDict d)).
    assert (∃ r' s', submit W mc (VDict d) s1 = (r', s') ∧
                     calls s' = calls s1 ++ [post]) as (r' & s' & Hs & Hcalls).
    { destruct (requests_post W (calls s1) url (request_headers hd) (VDict d))
        as [resp|] eqn:Hp.
      - destruct (submit_response W mc hd _ _ s1 Hh Hp) as (s' & ? & ? & _).
        by eexists _, s'.
      - destruct (submit_no_response W mc hd _ s1 Hh Hp) as (s' & ? & ? & _).
        by eexists _, s'. }
    exists r', s', (new ++ [post]). split; [exact Hs|].
    destruct Hst as (Hc1 & _). split; [by rewrite Hcalls, Hc1, app_assoc|].
    split.
    { apply Forall_app. split; [|by repeat constructor].
      eapply Forall_impl; [exact Hnew|]. by intros c []. }
    split.
    { intros u h b [Hin|Hin]%elem_of_app.
      - rewrite Forall_forall in Hnew. by destruct (Hnew _ Hin).
      - apply list_elem_of_singleton in Hin. injection Hin as -> -> ->.
        by exists d. }
    intros a n g Ha Hn Hg.
    destruct (front_ok W site a n g s Ha Hn Hg) as (s2 & Hf2 & Hc2 & _).
    rewrite Hf in Hf2. injection Hf2 as Hd2 <-.
    rewrite Hc1 in Hc2. apply app_inv_head in Hc2. subst new.
    unfold post. by rewrite Hd2.
  - exists (Raise e), s1, new. split; [reflexivity|].
    destruct Hst as (Hc1 & _). split; [exact Hc1|]. split.
    { eapply Forall_impl; [exact Hnew|]. by intros c []. }
    split.
    { intros u h b Hin. rewrite Forall_forall in Hnew.
      by destruct (Hnew _ Hin). }
    intros a n g Ha Hn Hg.
    destruct (front_ok W site a n g s Ha Hn Hg) as (s2 & Hf2 & _).
    by rewrite Hf in Hf2.
Qed.

(** *** The input loader *)

Lemma dom_dict_zip ks cs (d : gmap string (option string)) :
  dom (dict_zip ks cs d) = dom d ∪ list_to_set (take (length cs) ks).
Proof.
  revert cs d. induction ks as [|k ks IH]; intros [|c cs] d; simpl;
    try set_solver.
  rewrite IH. set_solver.
Qed.

Lemma dom_fill_None ks (d : gmap string (option string)) :
  dom (foldl (λ m k, <[k:=None]> m) d ks) = dom d ∪ list_to_set ks.
Proof.
  revert d. induction ks as [|k ks IH]; intros d; simpl; [set_solver|].
  rewrite IH. set_solver.
Qed.

Lemma dom_DictReader_row fieldnames row :
  dom (row_fields (DictReader_row fieldnames row)) = list_to_set fieldnames.
Proof.
  unfold DictReader_row.
  destruct (length fieldnames <? length row)%nat eqn:Hlt; simpl.
  - apply Nat.ltb_lt in Hlt. rewrite dom_dict_zip, take_ge by lia. set_solver.
  - rewrite dom_fill_None, dom_dict_zip.
    rewrite <- (take_drop (length row) fieldnames) at 3.
    rewrite list_to_set_app_L. set_solver.
Qed.

Lemma DictReader_columns fieldnames rows site k :
  site ∈ DictReader (fieldnames :: rows) →
  is_Some (row_fields site !! k) ↔ k ∈ fieldnames.
Proof.
  unfold DictReader. intros (row & -> & _)%list_elem_of_fmap.
  rewrite <- elem_of_dom, dom_DictReader_row. apply elem_of_list_to_set.
Qed.

(** C6, as the loader behaves: [read_csv] checks no column.  Whenever the
    file opens it returns one record per non-blank data row, and a record
    has exactly the columns of the header row, whatever they are. *)
Theorem read_csv_accepts_any_header filename fieldnames rows s :
  csv_file W filename = Some (fieldnames :: rows) →
  ∃ site_data s',
    read_csv W filename s = (Ok site_data, s') ∧
    steps s s' [] ∧
    length site_data = length (filter (λ r, r ≠ []) rows) ∧
    ∀ site k, site ∈ site_data →
      is_Some (row_fields site !! k) ↔ k ∈ fieldnames.
Proof.
  intros Hcsv. exists (DictReader (fieldnames :: rows)). eexists.
  unfold read_csv, mbind, M_bind, lift. rewrite Hcsv. cbv beta iota zeta.
  split; [reflexivity|]. split; [apply steps_print|].
  split; [apply length_fmap|].
  intros site k Hin. by apply DictReader_columns with rows.
Qed.

(** *** The template column *)

Lemma row_getitem_set_column_ne k k' c site :
  k ≠ k' → row_getitem (set_column k c site) k' = row_getitem site k'.
Proof.
  intros Hne. unfold row_getitem, set_column. simpl.
  by rewrite lookup_insert_ne.
Qed.

Lemma process_site_no_template_column mc site s :
  row_fields site !! "rf_template_name" = None →
  ∃ e s' new,
    process_site W mc site s = (Raise e, s') ∧
    steps s s' new ∧ Forall not_mist new.
Proof.
  intros Hc.
  destruct (front_cases site s) as (r & s1 & new & Hf & Hst & Hnew & _).
  rewrite process_site_stages. unfold mbind, M_bind. rewrite Hf.
  destruct r as [body|e].
  - rewrite (template_step_no_column W _ _ _ _ Hc). by eexists _, s1, new.
  - by eexists _, s1, new.
Qed.

(** C9: the loop body reads the template reference from the column
    [rf_template_name] and never from [rf_template_id].  Changing the latter
    changes nothing; a non-empty [rf_template_name] is the name looked up in
    the listing; and a record of a file with only the documented header has
    no [rf_template_name], so its row ends in an exception without any
    request to the Mist API, template listing included. *)
Theorem template_reference_is_rf_template_name mc rows site site' c s :
  site ∈ DictReader (documented_header :: rows) →
  process_site W mc (set_column "rf_template_id" c site') s =
    process_site W mc site' s ∧
  (∀ hd name d,
     header (mistAPI mc) = VDict hd →
     row_fields site' !! "rf_template_name" = Some name →
     name ≠ Some "" →
     let url := full_url mc (rftemplates_url mc) in
     ∃ s1,
       template_step W mc (set_column "rf_template_id" c site') (VDict d) s =
         (match resolve (requests_get W (calls s) url (request_headers hd))
                  name with
          | Ok rf_template =>
              match getitem rf_template "id" with
              | Ok id => Ok (VDict (<[ "rftemplate_id" := id ]> d))
              | Raise e => Raise e
              end
          | Raise e => Raise e
          end, s1) ∧
       steps s s1 [RequestsGet url (request_headers hd)]) ∧
  row_getitem site "rf_template_name" = Raise (KeyError "rf_template_name") ∧
  ∃ e s' new,
    process_site W mc site s = (Raise e, s') ∧
    steps s s' new ∧ Forall not_mist new.
Proof.
  intros Hin.
  assert (row_fields site !! "rf_template_name" = None) as Hc.
  { apply eq_None_not_Some. rewrite (DictReader_columns _ _ _ _ Hin).
    unfold documented_header. rewrite !elem_of_cons, elem_of_nil.
    by intros [?|[?|[?|[?|[]]]]]. }
  split; [|split; [|split]].
  - unfold process_site. by rewrite !row_getitem_set_column_ne.
  - intros hd name d Hh Hname Hne url.
    apply (template_step_named W mc hd _ name d s Hh); [|exact Hne].
    simpl. by rewrite lookup_insert_ne.
  - by apply row_getitem_None.
  - by apply process_site_no_template_column.
Qed.

(** *** Template resolution *)

Lemma eq_cell_str v name : eq_cell v (Some name) = true ↔ v = VStr name.
Proof.
  destruct v; simpl; try (split; [done|by intros [=]]).
  rewrite String.eqb_eq. split; [by intros ->|by intros [= ->]].
Qed.

Lemma next_named_unmatched items c :
  Forall (named_other c) items → next_named items c = Raise StopIteration.
Proof.
  induction 1 as [|item items (v & Hv & Hne) _ IH]; simpl; [done|].
  by rewrite Hv, Hne.
Qed.

Lemma next_named_first pre item post v c :
  Forall (named_other c) pre →
  getitem item "name" = Ok v → eq_cell v c = true →
  next_named (pre ++ item :: post) c = Ok item.
Proof.
  intros Hpre Hv Heq.
  induction Hpre as [|x pre (w & Hw & Hne) _ IH]; simpl.
  - by rewrite Hv, Heq.
  - by rewrite Hw, Hne.
Qed.

Lemma next_named_found items c item :
  next_named items c = Ok item →
  ∃ v, getitem item "name" = Ok v ∧ eq_cell v c = true.
Proof.
  induction items as [|x items IH]; simpl; [done|].
  destruct (getitem x "name") as [v|] eqn:Hv; [|done].
  destruct (eq_cell v c) eqn:Heq; [|exact IH].
  intros [= <-]. by exists v.
Qed.

Lemma resolve_list resp items c :
  json resp = Some (VList items) →
  resolve (Some resp) c = next_named items c.
Proof. intros Hj. unfold resolve, templates_of, call_json. by rewrite Hj. Qed.

(** C5, as the client behaves: the name test is exact string equality, a
    name no template carries raises [StopIteration], and of several
    templates with the name asked for the first in listing order is returned
    without any error. *)
Theorem template_by_name_takes_first_exact_match mc hd resp items name s :
  header (mistAPI mc) = VDict hd →
  requests_get W (calls s) (full_url mc (rftemplates_url mc))
    (request_headers hd) = Some resp →
  json resp = Some (VList items) →
  let r := (get_rftemplate_by_name W mc (Some name) s).1 in
  (∀ item, r = Ok item → getitem item "name" = Ok (VStr name)) ∧
  (∀ pre item post,
     items = pre ++ item :: post →
     Forall (named_other (Some name)) pre →
     getitem item "name" = Ok (VStr name) →
     r = Ok item) ∧
  (Forall (named_other (Some name)) items → r = Raise StopIteration).
Proof.
  intros Hh Hget Hj r.
  destruct (get_rftemplate_by_name_eq W mc hd (Some name) s Hh)
    as (s' & Heq & _).
  assert (r = next_named items (Some name)) as ->.
  { unfold r. by rewrite Heq, Hget, (resolve_list _ _ _ Hj). }
  split; [|split].
  - intros item (v & Hv & ->%eq_cell_str)%next_named_found. exact Hv.
  - intros pre item post -> Hpre Hv.
    apply (next_named_first _ _ _ _ _ Hpre Hv). by apply eq_cell_str.
  - apply next_named_unmatched.
Qed.

Lemma process_site_template_raises mc site body e s s1 s' :
  front W site s = (Ok body, s1) →
  template_step W mc site body s1 = (Raise e, s') →
  process_site W mc site s = (Raise e, s').
Proof.
  intros Hf Ht. rewrite process_site_stages. unfold mbind, M_bind.
  by rewrite Hf, Ht.
Qed.

(** C4, as the orchestrator behaves: a non-empty template name that no
    template of the listing carries makes [get_rftemplate_by_name] raise
    [StopIteration], which is not a [LookupError] and which nothing catches.
    The run ends at that row: nothing is posted for it and it reaches
    neither outcome list. *)
Theorem unmatched_template_aborts_run
    argv lines pre site post a n c g resp items s s0 s1 :
  csv_file W "sites.csv" = Some lines →
  DictReader lines = pre ++ site :: post →
  verify_self W (connector argv) (before_verify lines s) = (Ok (VBool true), s0) →
  for_each pre (process_site W (connector argv)) s0 = (Ok (), s1) →
  row_fields site !! "site_address" = Some a →
  row_fields site !! "site_name" = Some n →
  row_fields site !! "rf_template_name" = Some c →
  c ≠ Some "" →
  geocoder_google W (calls s1) (cell_value a) = Some g →
  let url := full_url (connector argv) (rftemplates_url (connector argv)) in
  let hdrs := request_headers (token_header argv) in
  let front_calls :=
    [GeocoderGoogle (cell_value a); front_timezone_call W (calls s1) a g] in
  requests_get W (calls s1 ++ front_calls) url hdrs = Some resp →
  json resp = Some (VList items) →
  Forall (named_other c) items →
  ∃ s',
    main W argv s = (Raise StopIteration, s') ∧
    is_LookupError StopIteration = false ∧
    steps s1 s' (front_calls ++ [RequestsGet url hdrs]).
Proof.
  intros Hcsv Hrows Hv Hpre Ha Hn Hc Hne Hg url hdrs front_calls Hget Hj Hitems.
  destruct (front_ok W site a n g s1 Ha Hn Hg) as (s2 & Hf & Hst2).
  destruct (template_step_named W (connector argv) _ site c
              (site_body n g (front_timezone W (calls s1) a g)) s2
              (connector_header argv) Hc Hne) as (s' & Ht & Hst').
  pose proof Hst2 as (Hc2 & _). rewrite Hc2 in Ht.
  fold url hdrs front_calls in Ht, Hst'.
  rewrite Hget, (resolve_list _ _ _ Hj), (next_named_unmatched _ _ Hitems) in Ht.
  exists s'. split; [|split; [done|]].
  - apply (main_loop_raises _ _ _ _ _ _ Hcsv Hv). rewrite Hrows.
    apply (for_each_raises _ _ _ _ _ _ _ _ Hpre).
    by apply process_site_template_raises with (VDict
      (site_body n g (front_timezone W (calls s1) a g))) s2.
  - apply (steps_trans s1 s2 s'); [exact Hst2|exact Hst'].
Qed.

End Claims.

(** ** Rows that reach submission *)

Section Outcomes.
Context (W : World).

Lemma process_site_reaches_submit mc hd site a n c g s :
  header (mistAPI mc) = VDict hd →
  row_fields site !! "site_address" = Some a →
  row_fields site !! "site_name" = Some n →
  row_fields site !! "rf_template_name" = Some c →
  geocoder_google W (calls s) (cell_value a) = Some g →
  let tz := front_timezone W (calls s) a g in
  let front_calls :=
    [GeocoderGoogle (cell_value a); front_timezone_call W (calls s) a g] in
  template_completes W mc hd c (calls s ++ front_calls) →
  ∃ d pre_calls s1,
    process_site W mc site s = submit W mc (VDict d) s1 ∧
    steps s s1 pre_calls ∧
    Forall (λ c, is_post c = false) pre_calls ∧
    (c = Some "" ∧ d = site_body n g tz ∨
     c ≠ Some "" ∧ ∃ id, d = <[ "rftemplate_id" := id ]> (site_body n g tz)).
Proof.
  intros Hh Ha Hn Hc Hg tz front_calls Ht.
  destruct (front_ok W site a n g s Ha Hn Hg) as (s1 & Hf & Hst1).
  fold tz front_calls in Hf, Hst1.
  destruct Ht as [->|(Hne & t & id & Hres & Hid)].
  - exists (site_body n g tz), front_calls, s1.
    split; [|split; [exact Hst1|split; [by repeat constructor|by left]]].
    rewrite process_site_stages. unfold mbind, M_bind.
    by rewrite Hf, (template_step_empty W _ _ _ _ Hc).
  - destruct (template_step_named W mc hd site c (site_body n g tz) s1
                Hh Hc Hne) as (s2 & Ht & Hst2).
    pose proof Hst1 as (Hc1 & _). rewrite Hc1, Hres, Hid in Ht.
    eexists (<[ "rftemplate_id" := id ]> (site_body n g tz)), _, s2.
    split; [|split; [exact (steps_trans _ _ _ _ _ Hst1 Hst2)|
                     split; [by repeat constructor|
                             by right; split; [|exists id]]]].
    rewrite process_site_stages. unfold mbind, M_bind. by rewrite Hf, Ht.
Qed.

Lemma site_body_timezone n g tz : site_body n g tz !! "timezone" = Some tz.
Proof. unfold site_body. by simplify_map_eq. Qed.

Lemma site_body_name n g tz :
  site_body n g tz !! "name" = Some (cell_value n).
Proof. unfold site_body. by simplify_map_eq. Qed.

(** C10, as the orchestrator behaves: when the geocoder answers, the time
    zone lookup returns [None] and the template step completes, the row is
    still posted, with [timezone] set to [None]; when the POST yields a
    response the body joins the successful sites exactly when the status is
    200 and the failed sites otherwise. *)
Theorem timezone_failure_still_posts mc hd site a n c g s :
  header (mistAPI mc) = VDict hd →
  row_fields site !! "site_address" = Some a →
  row_fields site !! "site_name" = Some n →
  row_fields site !! "rf_template_name" = Some c →
  geocoder_google W (calls s) (cell_value a) = Some g →
  (get_google_timezone W (ga_lat g) (ga_lng g)
     (log_call (GeocoderGoogle (cell_value a)) s)).1 = Ok VNone →
  template_completes W mc hd c
    (calls s ++ [GeocoderGoogle (cell_value a);
                 front_timezone_call W (calls s) a g]) →
  let url := full_url mc (sites_url mc) in
  let hdrs := request_headers hd in
  ∃ d pre_calls s',
    (process_site W mc site s).2 = s' ∧
    d !! "timezone" = Some VNone ∧
    calls s' = calls s ++ pre_calls ++ [RequestsPost url hdrs (VDict d)] ∧
    Forall (λ c, is_post c = false) pre_calls ∧
    ∀ resp,
      requests_post W (calls s ++ pre_calls) url hdrs (VDict d) = Some resp →
      (process_site W mc site s).1 = Ok () ∧
      successful_sites s' =
        successful_sites s ++
          (if status_code resp =? 200 then [VDict d] else []) ∧
      failed_sites s' =
        failed_sites s ++ (if status_code resp =? 200 then [] else [VDict d]).
Proof.
  intros Hh Ha Hn Hc Hg Htz Ht url hdrs.
  assert (front_timezone W (calls s) a g = VNone) as Hnone.
  { destruct (get_google_timezone_eq W (ga_lat g) (ga_lng g)
                (log_call (GeocoderGoogle (cell_value a)) s)) as (s1 & Heq & _).
    rewrite Heq in Htz. by injection Htz. }
  destruct (process_site_reaches_submit mc hd site a n c g s Hh Ha Hn Hc Hg Ht)
    as (d & pre_calls & s1 & Hp & (Hc1 & Hs1 & Hf1) & Hpre & Hd).
  rewrite Hnone in Hd. rewrite Hp.
  exists d, pre_calls.
  assert (d !! "timezone" = Some VNone) as Hdtz.
  { destruct Hd as [(_ & ->)|(_ & id & ->)].
    - apply site_body_timezone.
    - rewrite lookup_insert_ne by done. apply site_body_timezone. }
  destruct (requests_post W (calls s1) url hdrs (VDict d)) as [resp|] eqn:Hpost.
  - destruct (submit_response W mc hd _ _ s1 Hh Hpost)
      as (s' & Hs & Hcs & Hsucc & Hfail).
    exists s'. rewrite Hs. split; [done|]. split; [done|].
    split; [by rewrite Hcs, Hc1, app_assoc|]. split; [done|].
    intros resp'. rewrite <- Hc1, Hpost. intros [= <-].
    by rewrite Hsucc, Hfail, Hs1, Hf1.
  - destruct (submit_no_response W mc hd _ s1 Hh Hpost)
      as (s' & Hs & Hcs & _).
    exists s'. rewrite Hs. split; [done|]. split; [done|].
    split; [by rewrite Hcs, Hc1, app_assoc|]. split; [done|].
    intros resp'. by rewrite <- Hc1, Hpost.
Qed.

Lemma site_body_spec n g tz : site_body n g tz = spec_submission n g tz.
Proof.
  unfold site_body, geo_dict, spec_submission. reflexivity.
Qed.

(** C8, as the orchestrator builds the body: what is posted for a row is
    fixed by the row, the geocoder answer and the time zone alone.  It
    carries the row's name, the geocoder's address, latitude, longitude and
    country and the time zone; when the template name is empty it is
    exactly these five entries, without [rftemplate_id]. *)
Theorem submission_body_from_row_and_geoinfo mc hd site a n c g s :
  header (mistAPI mc) = VDict hd →
  row_fields site !! "site_address" = Some a →
  row_fields site !! "site_name" = Some n →
  row_fields site !! "rf_template_name" = Some c →
  geocoder_google W (calls s) (cell_value a) = Some g →
  template_completes W mc hd c
    (calls s ++ [GeocoderGoogle (cell_value a);
                 front_timezone_call W (calls s) a g]) →
  ∃ tz d,
    (get_google_timezone W (ga_lat g) (ga_lng g)
       (log_call (GeocoderGoogle (cell_value a)) s)).1 = Ok tz ∧
    last (calls (process_site W mc site s).2) =
      Some (RequestsPost (full_url mc (sites_url mc)) (request_headers hd)
              (VDict d)) ∧
    d !! "name" = Some (cell_value n) ∧
    d !! "address" = Some (ga_address g) ∧
    d !! "latlng" =
      Some (VDict (list_to_map [("lat", ga_lat g); ("lng", ga_lng g)])) ∧
    d !! "country_code" = Some (ga_country g) ∧
    d !! "timezone" = Some tz ∧
    (c = Some "" →
     d = spec_submission n g tz ∧ d !! "rftemplate_id" = None).
Proof.
  intros Hh Ha Hn Hc Hg Ht.
  destruct (get_google_timezone_eq W (ga_lat g) (ga_lng g)
              (log_call (GeocoderGoogle (cell_value a)) s)) as (st & Heq & _).
  destruct (process_site_reaches_submit mc hd site a n c g s Hh Ha Hn Hc Hg Ht)
    as (d & pre_calls & s1 & Hp & (Hc1 & _) & Hpre & Hd).
  exists (front_timezone W (calls s) a g), d.
  split; [by rewrite Heq|]. split.
  { rewrite Hp.
    destruct (requests_post W (calls s1) (full_url mc (sites_url mc))
                (request_headers hd) (VDict d)) as [resp|] eqn:Hpost.
    - destruct (submit_response W mc hd _ _ s1 Hh Hpost)
        as (s' & Hs & Hcs & _).
      rewrite Hs. simpl. rewrite Hcs. apply last_snoc.
    - destruct (submit_no_response W mc hd _ s1 Hh Hpost)
        as (s' & Hs & Hcs & _).
      rewrite Hs. simpl. rewrite Hcs. apply last_snoc. }
  assert (∀ k, k ≠ "rftemplate_id" →
               d !! k = spec_submission n g (front_timezone W (calls s) a g) !! k)
    as Hk.
  { intros k Hne. rewrite <- site_body_spec.
    destruct Hd as [(_ & ->)|(_ & id & ->)];
      [done|by rewrite lookup_insert_ne]. }
  rewrite !Hk by done. repeat (split; [done|]).
  intros Hempty. destruct Hd as [(_ & ->)|(Hne & _)]; [|done].
  split; [apply site_body_spec|apply site_body_no_template_id].
Qed.

(** *** The loop as a whole *)

Lemma process_site_completes mc hd site s :
  header (mistAPI mc) = VDict hd →
  row_completes W mc hd site →
  ∃ s' body ok,
    process_site W mc site s = (Ok (), s') ∧
    outcome_of site (body, ok) ∧
    successful_sites s' = successful_sites s ++ (if ok then [body] else []) ∧
    failed_sites s' = failed_sites s ++ (if ok then [] else [body]).
Proof.
  intros Hh (a & n & c & Ha & Hn & Hc & Hgeo & Htpl & Hpost).
  destruct (Hgeo (calls s)) as [g Hg].
  destruct (process_site_reaches_submit mc hd site a n c g s Hh Ha Hn Hc Hg
              (Htpl _)) as (d & pre_calls & s1 & Hp & (_ & Hs1 & Hf1) & _ & Hd).
  destruct (Hpost (calls s1) (VDict d)) as [resp Hresp].
  destruct (submit_response W mc hd _ _ s1 Hh Hresp)
    as (s' & Hs & _ & Hsucc & Hfail).
  exists s', (VDict d), (status_code resp =? 200).
  split; [by rewrite Hp|]. split.
  - exists n. split; [done|]. simpl.
    destruct Hd as [(_ & ->)|(_ & id & ->)].
    + by rewrite site_body_name.
    + by rewrite lookup_insert_ne, site_body_name.
  - by rewrite Hsucc, Hfail, Hs1, Hf1.
Qed.

Lemma succeeded_cons body ok outs :
  succeeded ((body, ok) :: outs) = (if ok then [body] else []) ++ succeeded outs.
Proof. unfold succeeded. rewrite filter_cons. by destruct ok. Qed.

Lemma failed_cons body ok outs :
  failed ((body, ok) :: outs) = (if ok then [] else [body]) ++ failed outs.
Proof. unfold failed. rewrite filter_cons. by destruct ok. Qed.

Lemma outcomes_length outs :
  (length (succeeded outs) + length (failed outs) = length outs)%nat.
Proof.
  induction outs as [|[body ok] outs IH]; [done|].
  rewrite succeeded_cons, failed_cons, !length_app.
  destruct ok; simpl; lia.
Qed.

Lemma for_each_completes mc hd rows s :
  header (mistAPI mc) = VDict hd →
  Forall (row_completes W mc hd) rows →
  ∃ s' outs,
    for_each rows (process_site W mc) s = (Ok (), s') ∧
    Forall2 outcome_of rows outs ∧
    successful_sites s' = successful_sites s ++ succeeded outs ∧
    failed_sites s' = failed_sites s ++ failed outs.
Proof.
  intros Hh Hrows. revert s.
  induction Hrows as [|site rows Hsite _ IH]; intros s.
  - exists s, []. by rewrite !app_nil_r.
  - destruct (process_site_completes mc hd site s Hh Hsite)
      as (s1 & body & ok & Hp & Hout & Hsucc & Hfail).
    destruct (IH s1) as (s' & outs & Hloop & Houts & Hsucc' & Hfail').
    exists s', ((body, ok) :: outs). simpl. unfold mbind, M_bind.
    rewrite Hp. split; [exact Hloop|]. split; [by constructor|].
    rewrite succeeded_cons, failed_cons, Hsucc', Hfail', Hsucc, Hfail.
    by rewrite <- !app_assoc.
Qed.

Lemma print_names_completes sites s :
  Forall (λ body, ∃ v, getitem body "name" = Ok v) sites →
  ∃ s', print_names sites s = (Ok (), s') ∧ steps s s' [].
Proof.
  intros Hsites. revert s. unfold print_names.
  induction Hsites as [|body sites (v & Hv) _ IH]; intros s.
  - exists s. split; [done|apply steps_refl].
  - destruct (IH (log_print (PValue v) s)) as (s' & Hloop & Hst).
    exists s'. simpl. unfold mbind, M_bind, lift. rewrite Hv.
    split; [exact Hloop|].
    apply (steps_trans _ _ _ [] [] (steps_print _ s) Hst).
Qed.

Lemma summary_completes s :
  Forall (λ body, ∃ v, getitem body "name" = Ok v) (successful_sites s) →
  Forall (λ body, ∃ v, getitem body "name" = Ok v) (failed_sites s) →
  ∃ s', summary s = (Ok (), s') ∧ steps s s' [].
Proof.
  intros Hsucc Hfail. unfold summary, mbind, M_bind, print.
  destruct (print_names_completes (successful_sites s)
              (log_print (PValue (VStr "Successful sites: ")) s) Hsucc)
    as (s1 & Hp1 & Hst1).
  cbv beta iota.
  change (successful_sites (log_print (PValue (VStr "Successful sites: ")) s))
    with (successful_sites s).
  rewrite Hp1.
  assert (failed_sites (log_print (PValue (VStr "Failed Sites: ")) s1) =
          failed_sites s) as Hfs by (simpl; apply Hst1).
  destruct (print_names_completes (failed_sites s)
              (log_print (PValue (VStr "Failed Sites: ")) s1) Hfail)
    as (s2 & Hp2 & Hst2).
  rewrite Hfs, Hp2. exists s2. split; [done|].
  apply (steps_trans _ _ _ [] []
           (steps_print (PValue (VStr "Successful sites: ")) s)).
  apply (steps_trans _ _ _ [] [] Hst1).
  apply (steps_trans _ _ _ [] []
           (steps_print (PValue (VStr "Failed Sites: ")) s1) Hst2).
Qed.

Lemma outcomes_named rows outs :
  Forall2 outcome_of rows outs →
  Forall (λ body, ∃ v, getitem body "name" = Ok v) outs.*1.
Proof.
  induction 1 as [|site o rows outs (n & _ & Hn) _ IH]; simpl;
    constructor; eauto.
Qed.

(** C1, as the orchestrator behaves: when the credential check returns
    [True] and, for every row, the geocoder answers, the template step
    completes and the POST yields a response, the run ends normally with one
    outcome per row, in row order; each row's body is in exactly one of the
    two lists, and the two lengths add up to the number of rows. *)
Theorem completed_run_has_one_outcome_per_row argv lines s s0 :
  csv_file W "sites.csv" = Some lines →
  verify_self W (connector argv) (before_verify lines s) = (Ok (VBool true), s0) →
  Forall (row_completes W (connector argv) (token_header argv))
    (DictReader lines) →
  ∃ s' outs,
    main W argv s = (Ok (), s') ∧
    Forall2 outcome_of (DictReader lines) outs ∧
    successful_sites s' = succeeded outs ∧
    failed_sites s' = failed outs ∧
    (length (successful_sites s') + length (failed_sites s') =
       length (DictReader lines))%nat.
Proof.
  intros Hcsv Hv Hrows.
  destruct (for_each_completes (connector argv) _ _ s0
              (connector_header argv) Hrows)
    as (s1 & outs & Hloop & Houts & Hsucc & Hfail).
  assert (successful_sites s0 = [] ∧ failed_sites s0 = []) as [Hs0 Hf0].
  { rewrite (verify_self_eq W _ _ _ (connector_header argv)) in Hv.
    cbv zeta in Hv. destruct (requests_get W _ _ _); by injection Hv as _ <-. }
  rewrite Hs0 in Hsucc. rewrite Hf0 in Hfail. simpl in Hsucc, Hfail.
  pose proof (outcomes_named _ _ Houts) as Hnamed.
  destruct (summary_completes s1) as (s' & Hsum & _ & Hs' & Hf').
  { rewrite Hsucc. unfold succeeded.
    rewrite Forall_forall in Hnamed. apply Forall_forall. intros b Hb.
    apply Hnamed. apply list_elem_of_fmap in Hb as (o & -> & Ho).
    apply list_elem_of_fmap. exists o. split; [done|].
    by apply list_elem_of_filter in Ho as [_ ?]. }
  { rewrite Hfail. unfold failed.
    rewrite Forall_forall in Hnamed. apply Forall_forall. intros b Hb.
    apply Hnamed. apply list_elem_of_fmap in Hb as (o & -> & Ho).
    apply list_elem_of_fmap. exists o. split; [done|].
    by apply list_elem_of_filter in Ho as [_ ?]. }
  exists s', outs. rewrite (main_eq W _ _ _ Hcsv), Hv. simpl.
  unfold mbind, M_bind. rewrite Hloop, Hsum, Hs', Hf', Hsucc, Hfail.
  split; [done|]. split; [done|]. split; [done|]. split; [done|].
  rewrite outcomes_length. symmetry. by apply Forall2_length in Houts.
Qed.

End Outcomes.

(** ** The claims on the example runs *)

(** The two records of [two_sites]. *)
Lemma two_sites_rows :
  DictReader two_sites =
    [DictReader_row named_header hq_cells;
     DictReader_row named_header branch_cells].
Proof. reflexivity. Defined.

(** In [world_up] every stage of both rows goes through. *)
Lemma two_sites_complete :
  Forall (row_completes world_up (connector argv0) (token_header argv0))
    (DictReader two_sites).
Proof.
  rewrite two_sites_rows. constructor; [|constructor; [|constructor]].
  - exists (Some hq_address), (Some "HQ"), (Some "").
    repeat split; try reflexivity.
    + intros h. eexists. reflexivity.
    + intros h. left. reflexivity.
    + intros h body. eexists. reflexivity.
  - exists (Some "500 Main St, Springfield, IL"), (Some "Branch 12"),
      (Some "Branch").
    repeat split; try reflexivity.
    + intros h. eexists. reflexivity.
    + intros h. right. split; [discriminate|].
      exists (rf_template "Branch" "rf-1"), (VStr "rf-1").
      split; reflexivity.
    + intros h body. eexists. reflexivity.
Defined.

(** C1: a run in which the credential check passes, the one row has every
    column and geocodes, and the POST is sent but gets no response.  The run
    ends in [AttributeError] with both lists empty: the row has no
    outcome. *)
Lemma valid_row_without_outcome :
  let run := main world_post_down argv0 fresh in
  DictReader hq_only = [DictReader_row named_header hq_cells] ∧
  (verify_self world_post_down (connector argv0)
     (before_verify hq_only fresh)).1 = Ok (VBool true) ∧
  run.1 = Raise AttributeError ∧
  length (filter (λ c, is_post c = true) (calls run.2)) = 1%nat ∧
  successful_sites run.2 = [] ∧
  failed_sites run.2 = [] ∧
  (length (successful_sites run.2) + length (failed_sites run.2))%nat ≠
    length (DictReader hq_only).
Proof. vm_compute. repeat split; discriminate. Qed.

(** The run of [world_up]: two rows, two outcomes. *)
Lemma completed_run_witness :
  ∃ s' outs,
    main world_up argv0 fresh = (Ok (), s') ∧
    Forall2 outcome_of (DictReader two_sites) outs ∧
    successful_sites s' = succeeded outs ∧
    failed_sites s' = failed outs ∧
    (length (successful_sites s') + length (failed_sites s') =
       length (DictReader two_sites))%nat.
Proof.
  apply (completed_run_has_one_outcome_per_row world_up argv0 two_sites fresh
           (verified world_up two_sites)).
  - reflexivity.
  - reflexivity.
  - exact two_sites_complete.
Defined.

(** The run of [world_denied]: status 401, one GET and nothing else. *)
Lemma unverified_run_witness :
  ∃ s',
    main world_denied argv0 fresh = (Ok (), s') ∧
    calls s' =
      calls fresh ++ [RequestsGet (full_url (connector argv0) "/api/v1/self")
                        (request_headers (token_header argv0))] ∧
    filter (λ c, is_post c = true) (calls s') =
      filter (λ c, is_post c = true) (calls fresh) ∧
    successful_sites s' = [] ∧
    failed_sites s' = [].
Proof.
  apply (unverified_run_processes_nothing world_denied argv0 two_sites fresh).
  - reflexivity.
  - vm_compute. discriminate.
Defined.

(** The headquarters row in [world_up]: geocoder, time zone, POST. *)
Lemma empty_template_name_witness :
  let site := DictReader_row named_header hq_cells in
  ∃ r s' new,
    process_site world_up (connector argv0) site fresh = (r, s') ∧
    calls s' = calls fresh ++ new ∧
    Forall (λ c, is_get c = false) new ∧
    (∀ url h body, RequestsPost url h body ∈ new →
       ∃ d, body = VDict d ∧ d !! "rftemplate_id" = None) ∧
    (∀ a n g,
       row_fields site !! "site_address" = Some a →
       row_fields site !! "site_name" = Some n →
       geocoder_google world_up (calls fresh) (cell_value a) = Some g →
       new = [GeocoderGoogle (cell_value a);
              front_timezone_call world_up (calls fresh) a g;
              RequestsPost (full_url (connector argv0) (sites_url (connector argv0)))
                (request_headers (token_header argv0))
                (VDict (site_body n g (front_timezone world_up (calls fresh) a g)))]).
Proof.
  apply (empty_template_name_skips_lookup world_up (connector argv0)
           (token_header argv0) (DictReader_row named_header hq_cells) fresh).
  - reflexivity.
  - reflexivity.
Defined.

(** C4: the first row asks for the template [Guest], which the listing
    does not have.  The run ends in [StopIteration], which is not a
    [LookupError]; nothing is posted, the failed list stays empty and the
    second row is never geocoded. *)
Lemma unmatched_template_is_not_failed :
  let run := main world_guest argv0 fresh in
  (get_rftemplate_by_name world_guest (connector argv0) (Some "Guest")
     fresh).1 = Raise StopIteration ∧
  run.1 = Raise StopIteration ∧
  is_LookupError StopIteration = false ∧
  failed_sites run.2 = [] ∧
  length (DictReader guest_then_hq) = 2%nat ∧
  calls run.2 =
    [RequestsGet (full_url (connector argv0) "/api/v1/self")
       (request_headers (token_header argv0));
     GeocoderGoogle (VStr "12 Rue de la Paix, Paris");
     TimezoneGet (VNum 37.33) (VNum (-122.03)) 1700000000 "g-key";
     RequestsGet (full_url (connector argv0) (rftemplates_url (connector argv0)))
       (request_headers (token_header argv0))].
Proof. vm_compute. repeat split. Qed.

(** The run of [world_guest] stops at its first row. *)
Lemma unmatched_template_witness :
  let a := Some "12 Rue de la Paix, Paris" in
  let s0 := verified world_guest guest_then_hq in
  let url := full_url (connector argv0) (rftemplates_url (connector argv0)) in
  let hdrs := request_headers (token_header argv0) in
  let front_calls :=
    [GeocoderGoogle (cell_value a);
     front_timezone_call world_guest (calls s0) a hq_geo] in
  ∃ s',
    main world_guest argv0 fresh = (Raise StopIteration, s') ∧
    is_LookupError StopIteration = false ∧
    steps s0 s' (front_calls ++ [RequestsGet url hdrs]).
Proof.
  apply (unmatched_template_aborts_run world_guest argv0 guest_then_hq []
           (DictReader_row named_header guest_cells)
           [DictReader_row named_header hq_cells]
           (Some "12 Rue de la Paix, Paris") (Some "Lobby") (Some "Guest")
           hq_geo {| status_code := 200; json := Some branch_templates |}
           [rf_template "Office" "rf-0"; rf_template "Branch" "rf-1";
            rf_template "Branch" "rf-2"]
           fresh (verified world_guest guest_then_hq)
           (verified world_guest guest_then_hq));
    try reflexivity.
  - discriminate.
  - repeat constructor; eexists; (split; reflexivity).
Defined.

(** C5: the listing has two templates named [Branch]; asking for that name
    raises nothing and returns the first of them. *)
Lemma ambiguous_template_name_resolves :
  (get_rftemplate_by_name world_up (connector argv0) (Some "Branch") fresh).1 =
    Ok (rf_template "Branch" "rf-1") ∧
  branch_templates =
    VList [rf_template "Office" "rf-0"; rf_template "Branch" "rf-1";
           rf_template "Branch" "rf-2"] ∧
  getitem (rf_template "Branch" "rf-2") "name" = Ok (VStr "Branch").
Proof. vm_compute. repeat split. Qed.

(** Resolving [Branch] against the listing of [world_up]. *)
Lemma template_by_name_witness :
  let r := (get_rftemplate_by_name world_up (connector argv0) (Some "Branch")
              fresh).1 in
  let items :=
    [rf_template "Office" "rf-0"; rf_template "Branch" "rf-1";
     rf_template "Branch" "rf-2"] in
  (∀ item, r = Ok item → getitem item "name" = Ok (VStr "Branch")) ∧
  (∀ pre item post,
     items = pre ++ item :: post →
     Forall (named_other (Some "Branch")) pre →
     getitem item "name" = Ok (VStr "Branch") →
     r = Ok item) ∧
  (Forall (named_other (Some "Branch")) items → r = Raise StopIteration).
Proof.
  apply (template_by_name_takes_first_exact_match world_up (connector argv0)
           (token_header argv0)
           {| status_code := 200; json := Some branch_templates |}
           [rf_template "Office" "rf-0"; rf_template "Branch" "rf-1";
            rf_template "Branch" "rf-2"] "Branch" fresh); reflexivity.
Defined.

(** C6: the header has neither the address nor the template column, and
    [read_csv] still returns a record for the data row. *)
Lemma missing_columns_are_accepted :
  (read_csv world_short "sites.csv" fresh).1 =
    Ok [DictReader_row ["site_name"; "site_groups"] ["HQ"; "campus"]] ∧
  row_fields (DictReader_row ["site_name"; "site_groups"] ["HQ"; "campus"])
    !! "site_address" = None ∧
  row_fields (DictReader_row ["site_name"; "site_groups"] ["HQ"; "campus"])
    !! "rf_template_id" = None.
Proof. vm_compute. repeat split. Qed.

(** Loading [short_file]. *)
Lemma read_csv_witness :
  ∃ site_data s',
    read_csv world_short "sites.csv" fresh = (Ok site_data, s') ∧
    steps fresh s' [] ∧
    length site_data = length (filter (λ r, r ≠ []) [["HQ"; "campus"]]) ∧
    ∀ site k, site ∈ site_data →
      is_Some (row_fields site !! k) ↔ k ∈ ["site_name"; "site_groups"].
Proof.
  apply (read_csv_accepts_any_header world_short "sites.csv"
           ["site_name"; "site_groups"] [["HQ"; "campus"]] fresh).
  reflexivity.
Defined.

(** The run of [world_geocoder_down] stops at its first row. *)
Lemma geocoder_failure_witness :
  let a := Some hq_address in
  let s0 := verified world_geocoder_down two_sites in
  ∃ s',
    (get_google_geoinfo world_geocoder_down (cell_value a) s0).1 = Ok VNone ∧
    main world_geocoder_down argv0 fresh = (Raise TypeError, s') ∧
    steps s0 s' [GeocoderGoogle (cell_value a)].
Proof.
  apply (geocoder_failure_aborts_run world_geocoder_down argv0 two_sites []
           (DictReader_row named_header hq_cells)
           [DictReader_row named_header branch_cells]
           (Some hq_address) (Some "HQ") fresh
           (verified world_geocoder_down two_sites)
           (verified world_geocoder_down two_sites)); reflexivity.
Defined.

(** C8: the row of the specification's example has the documented columns
    only, so the loop body raises [KeyError] at [rf_template_name] and posts
    nothing.  With the column the script reads, the posted body also has the
    key [address], which the stated submission lacks. *)
Lemma stated_submission_is_not_posted :
  let site := DictReader_row documented_header hq_cells in
  let run := process_site world_documented (connector argv0) site fresh in
  let site' := DictReader_row named_header hq_cells in
  let run' := process_site world_example (connector argv0) site' fresh in
  row_fields site =
    list_to_map [("site_name", Some "HQ"); ("site_address", Some hq_address);
                 ("site_groups", Some ""); ("rf_template_id", Some "")] ∧
  run.1 = Raise (KeyError "rf_template_name") ∧
  filter (λ c, is_post c = true) (calls run.2) = [] ∧
  ∃ d,
    last (calls run'.2) =
      Some (RequestsPost
              (full_url (connector argv0) (sites_url (connector argv0)))
              (request_headers (token_header argv0)) (VDict d)) ∧
    d !! "address" = Some VNone ∧
    stated_submission !! "address" = None ∧
    d ≠ stated_submission.
Proof.
  split; [vm_compute; reflexivity|].
  split; [vm_compute; reflexivity|].
  split; [vm_compute; reflexivity|].
  exists (site_body (Some "HQ") bare_geo (VStr "America/Los_Angeles")).
  split; [vm_compute; reflexivity|].
  split; [vm_compute; reflexivity|].
  split; [vm_compute; reflexivity|].
  intros Heq.
  assert (site_body (Some "HQ") bare_geo (VStr "America/Los_Angeles")
            !! "address" = stated_submission !! "address") as Hk
    by (by rewrite Heq).
  vm_compute in Hk. discriminate.
Qed.

(** The example row in [world_example]. *)
Lemma submission_body_witness :
  let site := DictReader_row named_header hq_cells in
  let a := Some hq_address in
  ∃ tz d,
    (get_google_timezone world_example (ga_lat bare_geo) (ga_lng bare_geo)
       (log_call (GeocoderGoogle (cell_value a)) fresh)).1 = Ok tz ∧
    last (calls (process_site world_example (connector argv0) site fresh).2) =
      Some (RequestsPost
              (full_url (connector argv0) (sites_url (connector argv0)))
              (request_headers (token_header argv0)) (VDict d)) ∧
    d !! "name" = Some (cell_value (Some "HQ")) ∧
    d !! "address" = Some (ga_address bare_geo) ∧
    d !! "latlng" =
      Some (VDict (list_to_map [("lat", ga_lat bare_geo);
                                ("lng", ga_lng bare_geo)])) ∧
    d !! "country_code" = Some (ga_country bare_geo) ∧
    d !! "timezone" = Some tz ∧
    (Some "" = Some "" →
     d = spec_submission (Some "HQ") bare_geo tz ∧
     d !! "rftemplate_id" = None).
Proof.
  apply (submission_body_from_row_and_geoinfo world_example (connector argv0)
           (token_header argv0) (DictReader_row named_header hq_cells)
           (Some hq_address) (Some "HQ") (Some "") bare_geo fresh);
    try reflexivity.
  left. reflexivity.
Defined.

(** The documented file in [world_documented]. *)
Lemma template_reference_witness :
  let mc := connector argv0 in
  let site := DictReader_row documented_header hq_cells in
  let site' := DictReader_row named_header branch_cells in
  process_site world_documented mc
    (set_column "rf_template_id" (Some "rf-9") site') fresh =
    process_site world_documented mc site' fresh ∧
  (∀ hd name d,
     header (mistAPI mc) = VDict hd →
     row_fields site' !! "rf_template_name" = Some name →
     name ≠ Some "" →
     let url := full_url mc (rftemplates_url mc) in
     ∃ s1,
       template_step world_documented mc
         (set_column "rf_template_id" (Some "rf-9") site') (VDict d) fresh =
         (match resolve (requests_get world_documented (calls fresh) url
                           (request_headers hd)) name with
          | Ok rf_template =>
              match getitem rf_template "id" with
              | Ok id => Ok (VDict (<[ "rftemplate_id" := id ]> d))
              | Raise e => Raise e
              end
          | Raise e => Raise e
          end, s1) ∧
       steps fresh s1 [RequestsGet url (request_headers hd)]) ∧
  row_getitem site "rf_template_name" = Raise (KeyError "rf_template_name") ∧
  ∃ e s' new,
    process_site world_documented mc site fresh = (Raise e, s') ∧
    steps fresh s' new ∧ Forall not_mist new.
Proof.
  apply (template_reference_is_rf_template_name world_documented
           (connector argv0) [hq_cells]
           (DictReader_row documented_header hq_cells)
           (DictReader_row named_header branch_cells) (Some "rf-9") fresh).
  simpl. left.
Defined.

(** C10: geocoding succeeds and the time zone lookup returns [None].  In
    the first run the row names a template the listing lacks: the run ends
    in [StopIteration] and nothing is posted.  In the second the POST gets no
    response: the run ends in [AttributeError] and the row has no outcome. *)
Lemma timezone_failure_without_outcome :
  let run := main world_no_timezone_guest argv0 fresh in
  let run' := main world_no_timezone_post_down argv0 fresh in
  (get_google_geoinfo world_no_timezone_guest
     (VStr "12 Rue de la Paix, Paris") fresh).1 = Ok (VDict (geo_dict hq_geo)) ∧
  (get_google_timezone world_no_timezone_guest (ga_lat hq_geo) (ga_lng hq_geo)
     fresh).1 = Ok VNone ∧
  run.1 = Raise StopIteration ∧
  filter (λ c, is_post c = true) (calls run.2) = [] ∧
  successful_sites run.2 = [] ∧
  failed_sites run.2 = [] ∧
  run'.1 = Raise AttributeError ∧
  successful_sites run'.2 = [] ∧
  failed_sites run'.2 = [].
Proof. vm_compute. repeat split. Qed.

(** The headquarters row in [world_no_timezone]. *)
Lemma timezone_failure_witness :
  let mc := connector argv0 in
  let site := DictReader_row named_header hq_cells in
  let url := full_url mc (sites_url mc) in
  let hdrs := request_headers (token_header argv0) in
  ∃ d pre_calls s',
    (process_site world_no_timezone mc site fresh).2 = s' ∧
    d !! "timezone" = Some VNone ∧
    calls s' = calls fresh ++ pre_calls ++ [RequestsPost url hdrs (VDict d)] ∧
    Forall (λ c, is_post c = false) pre_calls ∧
    ∀ resp,
      requests_post world_no_timezone (calls fresh ++ pre_calls) url hdrs
        (VDict d) = Some resp →
      (process_site world_no_timezone mc site fresh).1 = Ok () ∧
      successful_sites s' =
        successful_sites fresh ++
          (if status_code resp =? 200 then [VDict d] else []) ∧
      failed_sites s' =
        failed_sites fresh ++
          (if status_code resp =? 200 then [] else [VDict d]).
Proof.
  apply (timezone_failure_still_posts world_no_timezone (connector argv0)
           (token_header argv0) (DictReader_row named_header hq_cells)
           (Some hq_address) (Some "HQ") (Some "") hq_geo fresh);
    try reflexivity.
  left. reflexivity.
Defined.

(** * Further properties of the script *)

(** ** The client *)

Section Client.
Context (W : World).

Lemma http_get_no_mapping mc url s :
  (∀ hd, header (mistAPI mc) ≠ VDict hd) →
  http_get W mc url s = (Ok None, log_print (PExn TypeError) s).
Proof.
  intros Hh. unfold http_get, try_except, mbind, M_bind, lift, dict_merge.
  destruct (header (mistAPI mc)) as [| | | | |hd]; try reflexivity.
  by destruct (Hh hd).
Qed.

Lemma http_post_no_mapping mc url body s :
  (∀ hd, header (mistAPI mc) ≠ VDict hd) →
  http_post W mc url body s = (Ok None, log_print (PExn TypeError) s).
Proof.
  intros Hh. unfold http_post, try_except, mbind, M_bind, lift, dict_merge.
  destruct (header (mistAPI mc)) as [| | | | |hd]; try reflexivity.
  by destruct (Hh hd).
Qed.

(** X1: a client built on the base class [MistAPI], whose [header] is the
    empty string, never reaches the network: merging the headers raises
    [TypeError] inside the [try], so [verify_self] returns [False],
    [get_rf_templates] returns [None] and [create_site] returns [None],
    each without any call. *)
Theorem base_class_client_sends_nothing host org body s :
  let mc := {| mistAPI := MistAPI_init host org |} in
  (verify_self W mc s).1 = Ok (VBool false) ∧
  calls (verify_self W mc s).2 = calls s ∧
  (get_rf_templates W mc s).1 = Ok VNone ∧
  calls (get_rf_templates W mc s).2 = calls s ∧
  (create_site W mc body s).1 = Ok None ∧
  calls (create_site W mc body s).2 = calls s.
Proof. repeat split. Qed.

(** X2: with a token client [verify_self] never raises and makes exactly
    one GET of [/api/v1/self].  Its result is truthy exactly when the answer
    has status 200; it is [False] exactly when the request raised and [None]
    exactly when the answer has any other status. *)
Theorem verify_self_accepts_only_200 mc hd s :
  header (mistAPI mc) = VDict hd →
  let url := full_url mc "/api/v1/self" in
  let answer := requests_get W (calls s) url (request_headers hd) in
  ∃ v s',
    verify_self W mc s = (Ok v, s') ∧
    steps s s' [RequestsGet url (request_headers hd)] ∧
    (truthy v = true ↔ ∃ r, answer = Some r ∧ status_code r = 200) ∧
    (v = VBool false ↔ answer = None) ∧
    (v = VNone ↔ ∃ r, answer = Some r ∧ status_code r ≠ 200).
Proof.
  intros Hh url answer. rewrite (verify_self_eq W _ _ _ Hh). cbv zeta.
  fold url answer. destruct answer as [r|].
  - destruct (status_code r =? 200) eqn:Hst.
    + apply Z.eqb_eq in Hst. eexists _, _. split; [reflexivity|].
      split; [by unfold steps|]. simpl. split; [|split].
      * split; [by exists r|done].
      * split; [done|done].
      * split; [done|]. intros (r' & [= <-] & Hne). done.
    + apply Z.eqb_neq in Hst. eexists _, _. split; [reflexivity|].
      split; [by unfold steps|]. simpl. split; [|split].
      * split; [done|]. intros (r' & [= <-] & Heq). done.
      * split; [done|done].
      * split; [by exists r|done].
  - eexists _, _. split; [reflexivity|]. split; [by unfold steps|].
    simpl. split; [|split].
    + split; [done|]. by intros (r' & ? & _).
    + done.
    + split; [done|]. by intros (r' & ? & _).
Qed.

(** X3: [get_rf_templates] never raises and makes one GET of the listing.
    It returns the decoded body when there is one, and [None] both when the
    request raised and when the body is not JSON. *)
Theorem get_rf_templates_returns_json_or_None mc hd s :
  header (mistAPI mc) = VDict hd →
  let answer :=
    requests_get W (calls s) (full_url mc (rftemplates_url mc))
      (request_headers hd) in
  ∃ v s',
    get_rf_templates W mc s = (Ok v, s') ∧
    steps s s' [listing_get mc hd] ∧
    (∀ resp data, answer = Some resp → json resp = Some data → v = data) ∧
    (answer = None → v = VNone) ∧
    (∀ resp, answer = Some resp → json resp = None → v = VNone).
Proof.
  intros Hh answer.
  destruct (get_rf_templates_eq W mc hd s Hh) as (s' & Heq & Hst).
  eexists _, s'. split; [exact Heq|]. split; [exact Hst|].
  fold answer. unfold templates_of, call_json.
  split; [|split].
  - intros resp data -> Hj. by rewrite Hj.
  - by intros ->.
  - intros resp -> Hj. by rewrite Hj.
Qed.

(** X4: [create_site] never raises and makes exactly one POST, to the
    sites endpoint of the organisation, carrying the body it was given; it
    returns the response, or [None] when the request raised. *)
Theorem create_site_posts_once mc hd body s :
  header (mistAPI mc) = VDict hd →
  ∃ s',
    create_site W mc body s =
      (Ok (requests_post W (calls s) (full_url mc (sites_url mc))
             (request_headers hd) body), s') ∧
    steps s s' [sites_post mc hd body] ∧
    posted_bodies (calls s') = posted_bodies (calls s) ++ [body].
Proof.
  intros Hh. unfold create_site. rewrite (http_post_eq W _ _ _ _ _ Hh).
  cbv zeta.
  destruct (requests_post W (calls s) _ _ body); eexists;
    (split; [reflexivity|]); (split; [by unfold steps|]);
    simpl; unfold posted_bodies; by rewrite omap_app.
Qed.

End Client.

(** ** Template resolution, the other ways it ends *)

Section Resolution.
Context (W : World).

Lemma next_named_raises pre item post e c :
  Forall (named_other c) pre →
  getitem item "name" = Raise e →
  next_named (pre ++ item :: post) c = Raise e.
Proof.
  intros Hpre He.
  induction Hpre as [|x pre (w & Hw & Hne) _ IH]; simpl.
  - by rewrite He.
  - by rewrite Hw, Hne.
Qed.

Lemma next_named_strings (ks : list string) c :
  next_named (VStr <$> ks) c =
    Raise (if bool_decide (ks = []) then StopIteration else TypeError).
Proof. by destruct ks. Qed.

Lemma get_rftemplate_by_name_result mc hd name s :
  header (mistAPI mc) = VDict hd →
  (get_rftemplate_by_name W mc name s).1 =
    resolve (requests_get W (calls s) (full_url mc (rftemplates_url mc))
               (request_headers hd)) name ∧
  steps s (get_rftemplate_by_name W mc name s).2 [listing_get mc hd].
Proof.
  intros Hh.
  destruct (get_rftemplate_by_name_eq W mc hd name s Hh) as (s' & Heq & Hst).
  by rewrite Heq.
Qed.

(** X5: when the template listing cannot be had, because the request
    raised or its body is not JSON, [get_rf_templates] turns the failure
    into [None], and [get_rftemplate_by_name] then raises [TypeError] on
    iterating it, whatever the name asked for. *)
Theorem template_lookup_without_listing mc hd name e s :
  header (mistAPI mc) = VDict hd →
  call_json (requests_get W (calls s) (full_url mc (rftemplates_url mc))
               (request_headers hd)) = Raise e →
  (get_rftemplate_by_name W mc name s).1 = Raise TypeError ∧
  steps s (get_rftemplate_by_name W mc name s).2 [listing_get mc hd].
Proof.
  intros Hh Hfail.
  destruct (get_rftemplate_by_name_result mc hd name s Hh) as [-> Hst].
  split; [|exact Hst]. unfold resolve, templates_of. by rewrite Hfail.
Qed.

(** X6: when the listing answers with JSON that is not a list, no template
    is ever returned.  An object or a string is iterated over its keys or
    characters, which are strings and cannot be indexed by ["name"]: the
    lookup raises [TypeError], or [StopIteration] when there is nothing to
    iterate; [null], a boolean or a number is not iterable at all. *)
Theorem template_lookup_in_non_list mc hd name resp v s :
  header (mistAPI mc) = VDict hd →
  requests_get W (calls s) (full_url mc (rftemplates_url mc))
    (request_headers hd) = Some resp →
  json resp = Some v →
  (∀ items, v ≠ VList items) →
  let r := (get_rftemplate_by_name W mc name s).1 in
  (r = Raise StopIteration ∧ (v = VDict ∅ ∨ v = VStr "")) ∨
  (r = Raise TypeError ∧ v ≠ VDict ∅ ∧ v ≠ VStr "").
Proof.
  intros Hh Hget Hj Hv r. unfold r.
  destruct (get_rftemplate_by_name_result mc hd name s Hh) as [-> _].
  rewrite Hget. unfold resolve, templates_of, call_json. rewrite Hj.
  destruct v as [| | |str|items|d]; simpl; try (by right).
  - destruct str as [|ch str]; simpl; [left; split; [done|by right]|by right].
  - by destruct (Hv items).
  - rewrite next_named_strings.
    destruct (decide (d = ∅)) as [->|Hne].
    + rewrite map_to_list_empty. simpl. left. split; [done|by left].
    + right. split; [|split; [congruence|done]].
      rewrite bool_decide_false; [done|].
      intros Hnil. apply Hne. apply map_to_list_empty_iff.
      destruct (map_to_list d); [done|]. simpl in Hnil. discriminate.
Qed.

(** X7: the listing is searched in order and the search stops at the first
    item whose ["name"] cannot be read: an item without that key raises
    [KeyError], an item that is not an object raises [TypeError], even when
    a later item carries the name asked for. *)
Theorem template_lookup_stops_at_unreadable_item
    mc hd name resp pre item post e s :
  header (mistAPI mc) = VDict hd →
  requests_get W (calls s) (full_url mc (rftemplates_url mc))
    (request_headers hd) = Some resp →
  json resp = Some (VList (pre ++ item :: post)) →
  Forall (named_other name) pre →
  getitem item "name" = Raise e →
  (get_rftemplate_by_name W mc name s).1 = Raise e ∧
  (e = KeyError "name" ∨ e = TypeError).
Proof.
  intros Hh Hget Hj Hpre He.
  destruct (get_rftemplate_by_name_result mc hd name s Hh) as [-> _].
  rewrite Hget, (resolve_list _ _ _ Hj).
  split; [by apply next_named_raises|].
  unfold getitem in He. destruct item as [| | | | |d]; try (right; congruence).
  destruct (d !! "name"); [done|]. left. congruence.
Qed.

(** X8: a template that is found but has no ["id"] ends the row with
    [KeyError]: the geocoder, the time zone service and the listing were
    called, nothing is posted and the row reaches neither outcome list. *)
Theorem template_without_id_aborts_row mc hd site a n c g rf_template s :
  header (mistAPI mc) = VDict hd →
  row_fields site !! "site_address" = Some a →
  row_fields site !! "site_name" = Some n →
  row_fields site !! "rf_template_name" = Some c →
  c ≠ Some "" →
  geocoder_google W (calls s) (cell_value a) = Some g →
  let front_calls :=
    [GeocoderGoogle (cell_value a); front_timezone_call W (calls s) a g] in
  resolve (requests_get W (calls s ++ front_calls)
             (full_url mc (rftemplates_url mc)) (request_headers hd)) c =
    Ok (VDict rf_template) →
  rf_template !! "id" = None →
  ∃ s',
    process_site W mc site s = (Raise (KeyError "id"), s') ∧
    steps s s' (front_calls ++ [listing_get mc hd]).
Proof.
  intros Hh Ha Hn Hc Hne Hg front_calls Hres Hid.
  destruct (front_ok W site a n g s Ha Hn Hg) as (s1 & Hf & Hst1).
  destruct (template_step_named W mc hd site c
              (site_body n g (front_timezone W (calls s) a g)) s1 Hh Hc Hne)
    as (s' & Ht & Hst').
  pose proof Hst1 as (Hc1 & _). rewrite Hc1 in Ht.
  fold front_calls in Ht. rewrite Hres in Ht.
  unfold getitem in Ht. rewrite Hid in Ht.
  exists s'. split.
  - by apply process_site_template_raises with
      (VDict (site_body n g (front_timezone W (calls s) a g))) s1.
  - apply (steps_trans s s1 s'); [exact Hst1|exact Hst'].
Qed.

(** *** Rows shorter than the header *)

Lemma fill_None_lookup ks (d : gmap string (option string)) k :
  k ∈ ks → foldl (λ m k, <[k:=None]> m) d ks !! k = Some None.
Proof.
  revert d. induction ks as [|k' ks IH]; intros d Hin; [by inversion Hin|].
  simpl. destruct (decide (k ∈ ks)) as [Hks|Hks]; [by apply IH|].
  apply elem_of_cons in Hin as [->|]; [|done].
  clear IH. revert d. induction ks as [|k'' ks IH]; intros d; simpl.
  - by rewrite lookup_insert_eq.
  - apply not_elem_of_cons in Hks as [Hne Hks].
    rewrite insert_insert_ne by done. by apply IH.
Qed.

Lemma DictReader_row_missing_cell fieldnames row k :
  k ∈ drop (length row) fieldnames →
  row_fields (DictReader_row fieldnames row) !! k = Some None.
Proof.
  intros Hin. unfold DictReader_row.
  destruct (length fieldnames <? length row)%nat eqn:Hlt.
  - apply Nat.ltb_lt in Hlt. rewrite drop_ge in Hin by lia.
    by inversion Hin.
  - simpl. by apply fill_None_lookup.
Qed.

(** X9: a data row that ends before the column [rf_template_name] gets
    [None] in that column, which is not the empty string: the loop asks the
    platform for its templates and looks for one whose name is [null]. *)
Theorem short_row_triggers_template_lookup mc hd fieldnames row d s :
  header (mistAPI mc) = VDict hd →
  "rf_template_name" ∈ drop (length row) fieldnames →
  let site := DictReader_row fieldnames row in
  row_fields site !! "rf_template_name" = Some None ∧
  ∃ s',
    template_step W mc site (VDict d) s =
      (match resolve (requests_get W (calls s)
                        (full_url mc (rftemplates_url mc))
                        (request_headers hd)) None with
       | Ok rf_template =>
           match getitem rf_template "id" with
           | Ok id => Ok (VDict (<[ "rftemplate_id" := id ]> d))
           | Raise e => Raise e
           end
       | Raise e => Raise e
       end, s') ∧
    steps s s' [listing_get mc hd].
Proof.
  intros Hh Hin site.
  pose proof (DictReader_row_missing_cell _ _ _ Hin) as Hc.
  split; [exact Hc|].
  by apply (template_step_named W mc hd site None d s Hh Hc).
Qed.

End Resolution.

(** ** Records of the input file *)

Section Records.

Lemma dict_zip_lookup_other ks cs (d : gmap string (option string)) k :
  k ∉ ks → dict_zip ks cs d !! k = d !! k.
Proof.
  revert cs d. induction ks as [|k' ks IH]; intros [|c cs] d Hk; simpl;
    try done.
  apply not_elem_of_cons in Hk as [Hne Hk].
  rewrite IH by done. by rewrite lookup_insert_ne.
Qed.

Lemma dict_zip_lookup ks cs (d : gmap string (option string)) i k c :
  NoDup ks → ks !! i = Some k → cs !! i = Some c →
  dict_zip ks cs d !! k = Some (Some c).
Proof.
  revert cs d i. induction ks as [|k' ks IH]; intros [|c' cs] d [|i] Hnd Hk Hc;
    simpl in *; try done.
  - injection Hk as ->. injection Hc as ->.
    apply NoDup_cons in Hnd as [Hnotin _].
    rewrite dict_zip_lookup_other by done. by rewrite lookup_insert_eq.
  - apply NoDup_cons in Hnd as [_ Hnd]. by apply (IH cs _ i).
Qed.

Lemma fill_None_lookup_other ks (d : gmap string (option string)) k :
  k ∉ ks → foldl (λ m k, <[k:=None]> m) d ks !! k = d !! k.
Proof.
  revert d. induction ks as [|k' ks IH]; intros d Hk; simpl; [done|].
  apply not_elem_of_cons in Hk as [Hne Hk].
  rewrite IH by done. by rewrite lookup_insert_ne.
Qed.

(** X10: under a header without repeated names, a record gives back, for
    every column, the cell of the row at the position of that column; a
    column the row is too short for reads [None]; and the cells beyond the
    header, if any, are kept aside as the surplus. *)
Theorem DictReader_row_reads_cells_by_position fieldnames row :
  NoDup fieldnames →
  let site := DictReader_row fieldnames row in
  (∀ i k c,
     fieldnames !! i = Some k → row !! i = Some c →
     row_fields site !! k = Some (Some c)) ∧
  (∀ i k,
     fieldnames !! i = Some k → row !! i = None →
     row_fields site !! k = Some None) ∧
  (∀ k, k ∉ fieldnames → row_fields site !! k = None) ∧
  row_rest site =
    (if decide (length fieldnames < length row)%nat
     then Some (drop (length fieldnames) row) else None).
Proof.
  intros Hnd site. split; [|split; [|split]].
  - intros i k c Hk Hc. unfold site, DictReader_row.
    destruct (length fieldnames <? length row)%nat; simpl.
    + by apply dict_zip_lookup with i.
    + rewrite fill_None_lookup_other; [by apply dict_zip_lookup with i|].
      intros Hin. apply list_elem_of_lookup in Hin as [j Hj].
      rewrite lookup_drop in Hj.
      apply lookup_lt_Some in Hc.
      assert (length row + j = i)%nat as Heq
        by (eapply NoDup_lookup; [exact Hnd|exact Hj|exact Hk]).
      lia.
  - intros i k Hk Hc. apply DictReader_row_missing_cell.
    apply lookup_ge_None in Hc. apply list_elem_of_lookup.
    exists (i - length row)%nat. rewrite lookup_drop.
    by replace (length row + (i - length row))%nat with i by lia.
  - intros k Hk. apply not_elem_of_dom. unfold site.
    rewrite dom_DictReader_row. by rewrite elem_of_list_to_set.
  - unfold site, DictReader_row.
    destruct (length fieldnames <? length row)%nat eqn:Hlt; simpl.
    + apply Nat.ltb_lt in Hlt. by rewrite decide_True.
    + apply Nat.ltb_ge in Hlt. rewrite decide_False; [done|lia].
Qed.

End Records.

(** ** What a row and a run may do *)

Section Effects.
Context (W : World).

Lemma front_shapes site s :
  ∃ r s' new,
    front W site s = (r, s') ∧ steps s s' new ∧
    match r with
    | Ok body =>
        ∃ a lat lng ts key d,
          new = [GeocoderGoogle a; TimezoneGet lat lng ts key] ∧
          body = VDict d ∧ is_Some (d !! "name")
    | Raise _ => new = [] ∨ ∃ a, new = [GeocoderGoogle a]
    end.
Proof.
  destruct (row_fields site !! "site_address") as [a|] eqn:Ha.
  - destruct (row_fields site !! "site_name") as [n|] eqn:Hn.
    + destruct (geocoder_google W (calls s) (cell_value a)) as [g|] eqn:Hg.
      * destruct (front_ok W site a n g s Ha Hn Hg) as (s' & Hf & Hst).
        eexists _, s', _. split; [exact Hf|]. split; [exact Hst|].
        eexists _, _, _, _, _, _. split; [reflexivity|].
        split; [reflexivity|]. by rewrite site_body_name.
      * destruct (front_geocoder_raises W site a n s Ha Hn Hg)
          as (s' & Hf & Hst).
        eexists _, s', _. split; [exact Hf|]. split; [exact Hst|].
        right. by eexists.
    + unfold front, mbind, M_bind, lift.
      rewrite (row_getitem_Some _ _ _ Ha), (row_getitem_None _ _ Hn).
      cbv beta iota. rewrite get_google_geoinfo_eq.
      destruct (geocoder_google W (calls s) (cell_value a));
        eexists _, _, [GeocoderGoogle (cell_value a)];
        (split; [reflexivity|]); (split; [by unfold steps|]);
        right; by eexists.
  - unfold front, mbind, M_bind, lift. rewrite (row_getitem_None _ _ Ha).
    eexists _, s, []. split; [reflexivity|]. split; [apply steps_refl|].
    by left.
Qed.

Lemma template_step_shapes mc hd site d s :
  header (mistAPI mc) = VDict hd →
  ∃ r s' new,
    template_step W mc site (VDict d) s = (r, s') ∧ steps s s' new ∧
    (new = [] ∨ new = [listing_get mc hd]) ∧
    ∀ body, r = Ok body →
      ∃ d', body = VDict d' ∧ (is_Some (d !! "name") → is_Some (d' !! "name")).
Proof.
  intros Hh.
  destruct (row_fields site !! "rf_template_name") as [c|] eqn:Hc.
  - destruct (decide (c = Some "")) as [->|Hne].
    + rewrite (template_step_empty W _ _ _ _ Hc).
      eexists _, s, []. split; [done|]. split; [apply steps_refl|].
      split; [by left|]. intros body [= <-]. by exists d.
    + destruct (template_step_named W mc hd site c d s Hh Hc Hne)
        as (s' & Ht & Hst).
      eexists _, s', _. split; [exact Ht|]. split; [exact Hst|].
      split; [by right|]. intros body.
      destruct (resolve _ c) as [t|]; [|done].
      destruct (getitem t "id") as [id|]; [|done].
      intros [= <-]. eexists. split; [done|].
      by rewrite lookup_insert_ne.
  - rewrite (template_step_no_column W _ _ _ _ Hc).
    eexists _, s, []. split; [done|]. split; [apply steps_refl|].
    split; [by left|done].
Qed.

Lemma submit_shapes mc hd body s :
  header (mistAPI mc) = VDict hd →
  ∃ r s',
    submit W mc body s = (r, s') ∧
    calls s' = calls s ++ [sites_post mc hd body] ∧
    match r with
    | Ok _ =>
        (successful_sites s' = successful_sites s ++ [body] ∧
         failed_sites s' = failed_sites s) ∨
        (successful_sites s' = successful_sites s ∧
         failed_sites s' = failed_sites s ++ [body])
    | Raise _ =>
        successful_sites s' = successful_sites s ∧
        failed_sites s' = failed_sites s
    end.
Proof.
  intros Hh.
  destruct (requests_post W (calls s) (full_url mc (sites_url mc))
              (request_headers hd) body) as [resp|] eqn:Hp.
  - destruct (submit_response W mc hd _ _ s Hh Hp)
      as (s' & Hs & Hc & Hsucc & Hfail).
    eexists _, s'. split; [exact Hs|]. split; [exact Hc|].
    rewrite Hsucc, Hfail. destruct (status_code resp =? 200).
    + left. by rewrite app_nil_r.
    + right. by rewrite app_nil_r.
  - destruct (submit_no_response W mc hd _ s Hh Hp) as (s' & Hs & Hc & ? & ?).
    by eexists _, s'.
Qed.

(** The whole effect of one row. *)
Lemma process_site_effect mc hd site s :
  header (mistAPI mc) = VDict hd →
  ∃ r s' new posted,
    process_site W mc site s = (r, s') ∧
    calls s' = calls s ++ new ∧
    row_calls mc hd new posted ∧
    Forall has_name posted ∧
    match r with
    | Ok _ =>
        ∃ body, posted = [body] ∧
          ((successful_sites s' = successful_sites s ++ [body] ∧
            failed_sites s' = failed_sites s) ∨
           (successful_sites s' = successful_sites s ∧
            failed_sites s' = failed_sites s ++ [body]))
    | Raise _ =>
        successful_sites s' = successful_sites s ∧
        failed_sites s' = failed_sites s
    end.
Proof.
  intros Hh. rewrite process_site_stages. unfold mbind, M_bind.
  destruct (front_shapes site s) as (r1 & s1 & new1 & Hf & Hst1 & Hsh1).
  rewrite Hf. destruct Hst1 as (Hc1 & Hs1 & Hf1).
  destruct r1 as [body1|e1].
  2: { exists (Raise e1), s1, new1, []. split; [done|]. split; [done|].
       split; [|by split].
       destruct Hsh1 as [->|(a & ->)]; constructor. }
  destruct Hsh1 as (a & lat & lng & ts & key & d & -> & -> & Hname).
  destruct (template_step_shapes mc hd site d s1 Hh)
    as (r2 & s2 & new2 & Ht & (Hc2 & Hs2 & Hf2) & Hnew2 & Hbody2).
  rewrite Ht. destruct r2 as [body2|e2].
  2: { exists (Raise e2), s2, ([GeocoderGoogle a; TimezoneGet lat lng ts key]
         ++ new2), [].
       split; [done|]. split; [by rewrite Hc2, Hc1, app_assoc|].
       split; [|split; [done|by rewrite Hs2, Hf2]].
       destruct Hnew2 as [->| ->]; constructor. }
  destruct (Hbody2 body2 eq_refl) as (d' & -> & Hname').
  destruct (submit_shapes mc hd (VDict d') s2 Hh) as (r3 & s3 & Hsub & Hc3 & Hout).
  rewrite Hsub.
  exists r3, s3,
    (([GeocoderGoogle a; TimezoneGet lat lng ts key] ++ new2)
       ++ [sites_post mc hd (VDict d')]), [VDict d'].
  split; [done|]. split; [by rewrite Hc3, Hc2, Hc1, !app_assoc|].
  split; [destruct Hnew2 as [->| ->]; constructor|].
  split.
  { constructor; [|constructor]. destruct (Hname' Hname) as [v Hv].
    exists v. unfold getitem. by rewrite Hv. }
  rewrite <- Hs1, <- Hf1, <- Hs2, <- Hf2.
  destruct r3; [by exists (VDict d')|done].
Qed.

Lemma row_calls_posted mc hd new posted :
  row_calls mc hd new posted → posted_bodies new = posted.
Proof. by destruct 1. Qed.

Lemma row_calls_loop_call mc hd new posted :
  row_calls mc hd new posted → Forall (loop_call mc hd) new.
Proof. destruct 1; repeat constructor. Qed.

Lemma row_calls_length mc hd new posted :
  row_calls mc hd new posted → (length new ≤ 4)%nat.
Proof. destruct 1; simpl; lia. Qed.

Lemma posted_bodies_app l1 l2 :
  posted_bodies (l1 ++ l2) = posted_bodies l1 ++ posted_bodies l2.
Proof. apply omap_app. Qed.

(** The whole effect of the loop. *)
Lemma for_each_effect mc hd rows s :
  header (mistAPI mc) = VDict hd →
  ∃ r s' new succ fail,
    for_each rows (process_site W mc) s = (r, s') ∧
    calls s' = calls s ++ new ∧
    successful_sites s' = successful_sites s ++ succ ∧
    failed_sites s' = failed_sites s ++ fail ∧
    Forall (loop_call mc hd) new ∧
    Forall has_name (posted_bodies new) ∧
    succ ++ fail ⊆+ posted_bodies new ∧
    (length (posted_bodies new) ≤ length rows)%nat ∧
    (length new ≤ 4 * length rows)%nat ∧
    match r with
    | Ok _ => (length succ + length fail = length rows)%nat
    | Raise _ => (length succ + length fail < length rows)%nat
    end.
Proof.
  intros Hh. revert s. induction rows as [|site rows IH]; intros s.
  - exists (Ok ()), s, [], [], []. simpl. rewrite !app_nil_r.
    repeat split; try done; constructor.
  - destruct (process_site_effect mc hd site s Hh)
      as (r1 & s1 & new1 & posted1 & Hp & Hc1 & Hrow & Hnamed1 & Hout1).
    pose proof (row_calls_posted _ _ _ _ Hrow) as Hposted1.
    pose proof (row_calls_loop_call _ _ _ _ Hrow) as Hloop1.
    pose proof (row_calls_length _ _ _ _ Hrow) as Hlen1.
    assert (length posted1 ≤ 1)%nat as Hp1 by (destruct Hrow; simpl; lia).
    simpl. unfold mbind, M_bind. rewrite Hp.
    destruct r1 as [[]|e1].
    + destruct Hout1 as (body & -> & Hout1).
      destruct (IH s1)
        as (r & s' & new & succ & fail & Hloop & Hc & Hs & Hf & Hcalls
            & Hnamed & Hsub & Hlp & Hln & Hr).
      destruct Hout1 as [[Hs1 Hf1]|[Hs1 Hf1]].
      * exists r, s', (new1 ++ new), (body :: succ), fail.
        split; [done|]. split; [by rewrite Hc, Hc1, app_assoc|].
        split; [by rewrite Hs, Hs1, <- app_assoc|].
        split; [by rewrite Hf, Hf1|].
        split; [by apply Forall_app|].
        rewrite posted_bodies_app, Hposted1.
        split; [by apply Forall_app|].
        split; [simpl; by constructor|].
        split; [simpl in *; lia|]. split; [rewrite length_app; simpl; lia|].
        destruct r; simpl; lia.
      * exists r, s', (new1 ++ new), succ, (body :: fail).
        split; [done|]. split; [by rewrite Hc, Hc1, app_assoc|].
        split; [by rewrite Hs, Hs1|].
        split; [by rewrite Hf, Hf1, <- app_assoc|].
        split; [by apply Forall_app|].
        rewrite posted_bodies_app, Hposted1.
        split; [by apply Forall_app|].
        split.
        { simpl. rewrite <- Permutation_middle. by constructor. }
        split; [simpl in *; lia|]. split; [rewrite length_app; simpl; lia|].
        destruct r; rewrite ?length_cons; simpl; lia.
    + destruct Hout1 as [Hs1 Hf1].
      exists (Raise e1), s1, new1, [], []. rewrite !app_nil_r.
      split; [done|]. split; [done|]. split; [done|]. split; [done|].
      split; [done|]. rewrite Hposted1. split; [done|].
      split; [apply submseteq_nil_l|]. simpl. repeat split; lia.
Qed.

End Effects.

(** ** The run as a whole *)

Section Run.
Context (W : World).

Lemma connector_host argv :
  host (mistAPI (connector argv)) = selected_host argv.
Proof. reflexivity. Qed.

Lemma token_request_headers argv :
  request_headers (token_header argv) =
    {[ "content-type" := VStr "application/json";
       "Authorization" := VStr ("Token " +:+ arg_mist_api_key argv) ]}.
Proof. reflexivity. Qed.

Lemma loop_call_main_call argv c :
  loop_call (connector argv) (token_header argv) c → main_call argv c.
Proof.
  destruct c as [| |url h|url h body]; simpl;
    [done|done|intros [-> ->]|intros [-> ->]].
  - split; [by right|apply token_request_headers].
  - split; [done|apply token_request_headers].
Qed.

Lemma self_get_main_call argv :
  main_call argv (RequestsGet (full_url (connector argv) "/api/v1/self")
                    (request_headers (token_header argv))).
Proof.
  simpl. split; [left|apply token_request_headers].
  unfold full_url. by rewrite connector_host.
Qed.

Lemma main_no_file argv s :
  csv_file W "sites.csv" = None →
  main W argv s = (Raise OSError, clear_sites s).
Proof.
  intros Hcsv. unfold main, read_csv, reset_sites, mbind, M_bind, lift.
  by rewrite Hcsv.
Qed.

(** The whole effect of [main] on a file that opens. *)
Lemma main_effect argv lines s :
  csv_file W "sites.csv" = Some lines →
  let self_get :=
    RequestsGet (full_url (connector argv) "/api/v1/self")
      (request_headers (token_header argv)) in
  ∃ r s' new,
    main W argv s = (r, s') ∧
    calls s' = calls s ++ self_get :: new ∧
    Forall (main_call argv) (self_get :: new) ∧
    Forall has_name (posted_bodies new) ∧
    successful_sites s' ++ failed_sites s' ⊆+ posted_bodies new ∧
    (length (posted_bodies new) ≤ length (DictReader lines))%nat ∧
    (length new ≤ 4 * length (DictReader lines))%nat ∧
    match r with
    | Ok _ =>
        (new = [] ∧
         (verify_self W (connector argv) (before_verify lines s)).1
           ≠ Ok (VBool true)) ∨
        (length (successful_sites s') + length (failed_sites s') =
           length (DictReader lines))%nat
    | Raise _ =>
        (length (successful_sites s') + length (failed_sites s') <
           length (DictReader lines))%nat
    end.
Proof.
  intros Hcsv self_get. rewrite (main_eq W _ _ _ Hcsv).
  rewrite (verify_self_eq W _ _ _ (connector_header argv)). cbv zeta.
  fold self_get.
  pose proof (self_get_main_call argv) as Hself. fold self_get in Hself.
  destruct (requests_get W _ _ _) as [resp|].
  2: { eexists (Ok ()), _, []. split; [reflexivity|]. simpl.
       split; [done|]. split; [by constructor|]. split; [constructor|].
       split; [done|]. split; [lia|]. split; [lia|]. left. by split. }
  destruct (status_code resp =? 200).
  2: { eexists (Ok ()), _, []. split; [reflexivity|]. simpl.
       split; [done|]. split; [by constructor|]. split; [constructor|].
       split; [done|]. split; [lia|]. split; [lia|]. left. by split. }
  simpl.
  destruct (for_each_effect W (connector argv) (token_header argv)
              (DictReader lines) (log_call self_get (before_verify lines s))
              (connector_header argv))
    as (r & s1 & new & succ & fail & Hloop & Hc & Hs & Hf & Hcalls & Hnamed
        & Hsub & Hlp & Hln & Hr).
  simpl in Hc, Hs, Hf.
  assert (Forall (main_call argv) new) as Hmain.
  { eapply Forall_impl; [exact Hcalls|]. apply loop_call_main_call. }
  assert (∀ l, l ⊆+ posted_bodies new → Forall has_name l) as Hsubnamed.
  { intros l Hl. apply Forall_forall. intros b Hb.
    rewrite Forall_forall in Hnamed. apply Hnamed.
    by apply (elem_of_submseteq l). }
  unfold mbind, M_bind. rewrite Hloop. destruct r as [[]|e].
  - destruct (summary_completes s1) as (s' & Hsum & Hc' & Hs' & Hf').
    { rewrite Hs. apply Hsubnamed. etrans; [|exact Hsub].
      apply submseteq_inserts_r. done. }
    { rewrite Hf. apply Hsubnamed. etrans; [|exact Hsub].
      apply submseteq_inserts_l. done. }
    exists (Ok ()), s', new. rewrite Hsum, Hc', Hs', Hf', Hc, Hs, Hf.
    rewrite app_nil_r, <- app_assoc.
    split; [done|]. split; [done|]. split; [by constructor|].
    split; [done|]. split; [done|]. split; [done|]. split; [done|].
    by right.
  - exists (Raise e), s1, new. rewrite Hc, Hs, Hf, <- app_assoc.
    split; [done|]. split; [done|]. split; [by constructor|].
    split; [done|]. split; [done|]. split; [done|]. split; [done|]. done.
Qed.

End Run.

Section RunProperties.
Context (W : World).

(** X11: whatever the row and the world, the loop body calls the geocoder,
    then the time zone service, then at most once the template listing,
    then at most once the sites endpoint, each at most once and in this
    order, stopping at any point.  It returns normally exactly when the one
    body it posted was appended to exactly one outcome list; when it raises,
    both lists are as before. *)
Theorem row_calls_in_order_at_most_once mc hd site s :
  header (mistAPI mc) = VDict hd →
  ∃ new posted,
    calls (process_site W mc site s).2 = calls s ++ new ∧
    row_calls mc hd new posted ∧
    Forall has_name posted ∧
    let s' := (process_site W mc site s).2 in
    match (process_site W mc site s).1 with
    | Ok _ =>
        ∃ body, posted = [body] ∧
          ((successful_sites s' = successful_sites s ++ [body] ∧
            failed_sites s' = failed_sites s) ∨
           (successful_sites s' = successful_sites s ∧
            failed_sites s' = failed_sites s ++ [body]))
    | Raise _ =>
        successful_sites s' = successful_sites s ∧
        failed_sites s' = failed_sites s
    end.
Proof.
  intros Hh.
  destruct (process_site_effect W mc hd site s Hh)
    as (r & s' & new & posted & -> & Hc & Hrow & Hnamed & Hout).
  by exists new, posted.
Qed.

(** X12: every request [main] sends to the Mist API goes to the host the
    command line selects, the European one whenever [-e] is present and
    whatever its value: a GET of [/api/v1/self] or of the organisation's
    template listing, or a POST to the organisation's sites, each with the
    JSON content type and the token in [Authorization]. *)
Theorem main_requests_use_selected_host_and_token argv s :
  ∃ new,
    calls (main W argv s).2 = calls s ++ new ∧
    Forall (main_call argv) new.
Proof.
  destruct (csv_file W "sites.csv") as [lines|] eqn:Hcsv.
  - destruct (main_effect W argv lines s Hcsv)
      as (r & s' & new & -> & Hc & Hcalls & _).
    by eexists.
  - rewrite (main_no_file W _ _ Hcsv). exists []. simpl.
    by rewrite app_nil_r.
Qed.

(** X13: a run never reports a site it did not submit.  The bodies in the
    two outcome lists at the end of [main], taken together, are among the
    bodies posted during this run, no more often than they were posted, and
    every posted body carries a name. *)
Theorem reported_sites_were_posted argv s :
  ∃ new,
    calls (main W argv s).2 = calls s ++ new ∧
    successful_sites (main W argv s).2 ++ failed_sites (main W argv s).2
      ⊆+ posted_bodies new ∧
    Forall has_name (posted_bodies new).
Proof.
  destruct (csv_file W "sites.csv") as [lines|] eqn:Hcsv.
  - destruct (main_effect W argv lines s Hcsv)
      as (r & s' & new & -> & Hc & _ & Hnamed & Hsub & _).
    eexists. split; [exact Hc|]. by split.
  - rewrite (main_no_file W _ _ Hcsv). exists []. simpl.
    rewrite app_nil_r. by repeat split.
Qed.

(** X14: on a file that opens, [main] posts at most once per record and
    makes at most four calls per record after the credential check.  If it
    returns normally, either the credential check did not return [True] and
    nothing else was called, or every record has an outcome; if it raises,
    fewer records have an outcome than the file has. *)
Theorem run_ends_normally_only_with_all_outcomes argv lines s :
  csv_file W "sites.csv" = Some lines →
  let run := main W argv s in
  let rows := DictReader lines in
  ∃ new,
    calls run.2 =
      calls s ++ RequestsGet (full_url (connector argv) "/api/v1/self")
                   (request_headers (token_header argv)) :: new ∧
    (length (posted_bodies new) ≤ length rows)%nat ∧
    (length new ≤ 4 * length rows)%nat ∧
    match run.1 with
    | Ok _ =>
        (new = [] ∧
         (verify_self W (connector argv) (before_verify lines s)).1
           ≠ Ok (VBool true)) ∨
        (length (successful_sites run.2) + length (failed_sites run.2) =
           length rows)%nat
    | Raise _ =>
        (length (successful_sites run.2) + length (failed_sites run.2) <
           length rows)%nat
    end.
Proof.
  intros Hcsv run rows. unfold run.
  destruct (main_effect W argv lines s Hcsv)
    as (r & s' & new & -> & Hc & _ & _ & _ & Hlp & Hln & Hr).
  by exists new.
Qed.

(** X15: when [sites.csv] cannot be opened, [main] raises before the
    credential check: no call is made and nothing is printed. *)
Theorem unreadable_file_stops_before_any_call argv s :
  csv_file W "sites.csv" = None →
  (main W argv s).1 = Raise OSError ∧
  calls (main W argv s).2 = calls s ∧
  console (main W argv s).2 = console s.
Proof. intros Hcsv. by rewrite (main_no_file W _ _ Hcsv). Qed.

Lemma blank_rows_are_skipped (rows : list (list string)) :
  Forall (λ row, row = []) rows → filter (λ r, r ≠ []) rows = [].
Proof.
  induction 1 as [|row rows -> _ IH]; [done|].
  rewrite filter_cons_False; [exact IH|]. by intros H.
Qed.

(** X16: a file without data rows, be it empty, a header alone or a header
    followed by blank lines, gives a run that, once the credential check
    passed, calls nothing else and prints the empty record list and the two
    summary headings. *)
Theorem run_without_data_rows argv lines resp s :
  csv_file W "sites.csv" = Some lines →
  Forall (λ row, row = []) (tail lines) →
  requests_get W (calls s) (full_url (connector argv) "/api/v1/self")
    (request_headers (token_header argv)) = Some resp →
  status_code resp = 200 →
  let run := main W argv s in
  run.1 = Ok () ∧
  calls run.2 =
    calls s ++ [RequestsGet (full_url (connector argv) "/api/v1/self")
                  (request_headers (token_header argv))] ∧
  console run.2 =
    console s ++ [PRows []; PValue (VStr "Successful sites: ");
                  PValue (VStr "Failed Sites: ")] ∧
  successful_sites run.2 = [] ∧
  failed_sites run.2 = [].
Proof.
  intros Hcsv Hblank Hget Hst run. unfold run.
  assert (DictReader lines = []) as Hrows.
  { destruct lines as [|fieldnames rows]; [done|]. simpl in *.
    by rewrite blank_rows_are_skipped. }
  rewrite (main_eq W _ _ _ Hcsv).
  rewrite (verify_self_eq W _ _ _ (connector_header argv)). cbv zeta.
  unfold before_verify. simpl. rewrite Hget, Hst, Hrows. simpl.
  by rewrite <- !app_assoc.
Qed.

Lemma print_names_console sites s :
  Forall has_name sites →
  ∃ s',
    print_names sites s = (Ok (), s') ∧ steps s s' [] ∧
    console s' = console s ++ printed_names sites.
Proof.
  intros Hsites. revert s. unfold print_names, printed_names.
  induction Hsites as [|body sites (v & Hv) _ IH]; intros s.
  - exists s. split; [done|]. split; [apply steps_refl|].
    by rewrite app_nil_r.
  - destruct (IH (log_print (PValue v) s)) as (s' & Hloop & Hst & Hcon).
    exists s'. simpl. unfold mbind, M_bind, lift. rewrite Hv.
    split; [exact Hloop|]. split.
    + apply (steps_trans _ _ _ [] [] (steps_print (PValue v) s) Hst).
    + rewrite Hcon. simpl. by rewrite <- app_assoc.
Qed.

(** X17: the summary prints, after each heading, the names of the sites of
    that list in the order they were appended, calls nothing and leaves both
    lists as they are. *)
Theorem summary_prints_names_in_order s :
  Forall has_name (successful_sites s) →
  Forall has_name (failed_sites s) →
  ∃ s',
    summary s = (Ok (), s') ∧ steps s s' [] ∧
    console s' =
      console s ++
        [PValue (VStr "Successful sites: ")] ++
        printed_names (successful_sites s) ++
        [PValue (VStr "Failed Sites: ")] ++
        printed_names (failed_sites s).
Proof.
  intros Hsucc Hfail. unfold summary, mbind, M_bind, print.
  cbv beta iota.
  destruct (print_names_console (successful_sites s)
              (log_print (PValue (VStr "Successful sites: ")) s) Hsucc)
    as (s1 & Hp1 & Hst1 & Hcon1).
  change (successful_sites (log_print (PValue (VStr "Successful sites: ")) s))
    with (successful_sites s).
  rewrite Hp1.
  assert (failed_sites (log_print (PValue (VStr "Failed Sites: ")) s1) =
          failed_sites s) as Hfs by (simpl; apply Hst1).
  destruct (print_names_console (failed_sites s)
              (log_print (PValue (VStr "Failed Sites: ")) s1) Hfail)
    as (s2 & Hp2 & Hst2 & Hcon2).
  rewrite Hfs, Hp2. exists s2. split; [done|]. split.
  - apply (steps_trans _ _ _ [] []
             (steps_print (PValue (VStr "Successful sites: ")) s)).
    apply (steps_trans _ _ _ [] [] Hst1).
    apply (steps_trans _ _ _ [] []
             (steps_print (PValue (VStr "Failed Sites: ")) s1) Hst2).
  - rewrite Hcon2. simpl. rewrite Hcon1. simpl.
    by rewrite <- !app_assoc.
Qed.

(** X18: the loop body reads three columns of a record and nothing else:
    two records that agree on [site_address], [site_name] and
    [rf_template_name] are processed alike, whatever their other columns,
    [site_groups] among them, and their surplus cells. *)
Theorem only_three_columns_are_read mc site site' s :
  same_read_columns site site' →
  process_site W mc site s = process_site W mc site' s.
Proof.
  intros (Ha & Hn & Hc). unfold process_site, row_getitem.
  by rewrite Ha, Hn, Hc.
Qed.

(** X19: [get_google_timezone] never raises and makes exactly one request,
    for the coordinates it was given and the time of the clock.  A result
    other than [None] is the [timeZoneId] of the JSON answer; a request that
    raised, a body that is not JSON and a body without [timeZoneId] all give
    [None]. *)
Theorem timezone_is_timeZoneId_or_None lat lng s :
  let ts := time_time W (calls s) in
  let answer := timezone_get W (calls s) lat lng ts (google_api_key W) in
  ∃ tz s',
    get_google_timezone W lat lng s = (Ok tz, s') ∧
    steps s s' [TimezoneGet lat lng ts (google_api_key W)] ∧
    (tz ≠ VNone →
     ∃ resp data,
       answer = Some resp ∧ json resp = Some data ∧
       getitem data "timeZoneId" = Ok tz) ∧
    (answer = None → tz = VNone) ∧
    (∀ resp, answer = Some resp → json resp = None → tz = VNone) ∧
    (∀ resp data e,
       answer = Some resp → json resp = Some data →
       getitem data "timeZoneId" = Raise e → tz = VNone).
Proof.
  intros ts answer.
  destruct (get_google_timezone_eq W lat lng s) as (s' & Heq & Hst).
  eexists _, s'. split; [exact Heq|]. split; [exact Hst|].
  fold ts answer. unfold timezone_of.
  split; [|split; [|split]].
  - destruct answer as [resp|]; [|done].
    destruct (json resp) as [data|] eqn:Hj; [|done].
    destruct (getitem data "timeZoneId") as [v|] eqn:Hv; [|done].
    intros _. by exists resp, data.
  - by intros ->.
  - intros resp -> Hj. by rewrite Hj.
  - intros resp data e -> Hj Hv. by rewrite Hj, Hv.
Qed.

(** X20: [get_google_geoinfo] never raises and calls the geocoder exactly
    once.  It returns [None] exactly when the geocoder raised; otherwise a
    dictionary with exactly the keys [address], [latlng] and [country_code],
    whose [latlng] has exactly [lat] and [lng], filled from the answer even
    when the answer's attributes are [None]. *)
Theorem geoinfo_has_three_keys_or_is_None a s :
  ∃ v s',
    get_google_geoinfo W a s = (Ok v, s') ∧
    steps s s' [GeocoderGoogle a] ∧
    (v = VNone ↔ geocoder_google W (calls s) a = None) ∧
    ∀ g, geocoder_google W (calls s) a = Some g →
      ∃ d ll,
        v = VDict d ∧
        dom d = {[ "address"; "latlng"; "country_code" ]} ∧
        d !! "address" = Some (ga_address g) ∧
        d !! "country_code" = Some (ga_country g) ∧
        d !! "latlng" = Some (VDict ll) ∧
        dom ll = {[ "lat"; "lng" ]} ∧
        ll !! "lat" = Some (ga_lat g) ∧
        ll !! "lng" = Some (ga_lng g).
Proof.
  rewrite get_google_geoinfo_eq.
  destruct (geocoder_google W (calls s) a) as [g|].
  - eexists _, _. split; [reflexivity|]. split; [by unfold steps|].
    split; [done|]. intros g' [= <-].
    exists (geo_dict g), (<[ "lng" := ga_lng g ]> {[ "lat" := ga_lat g ]}).
    split; [reflexivity|]. unfold geo_dict.
    split.
    { rewrite !dom_insert_L, !dom_singleton_L. apply set_eq. intros k.
      rewrite !elem_of_union, !elem_of_singleton. tauto. }
    split; [by simplify_map_eq|]. split; [by simplify_map_eq|].
    split; [by simplify_map_eq|].
    split.
    { rewrite !dom_insert_L, !dom_singleton_L. apply set_eq. intros k.
      rewrite !elem_of_union, !elem_of_singleton. tauto. }
    split; by simplify_map_eq.
  - eexists _, _. split; [reflexivity|].
    split; [apply (steps_trans _ _ _ [_] [] (steps_call _ s) (steps_print _ _))|].
    split; [done|]. done.
Qed.

End RunProperties.

(** ** Percent-encoding of addresses *)

Section Encoding.

Lemma quote_byte_decodes c :
  match quote_byte ["/"%char] c with
  | String x "" => Ascii.eqb x c && negb (Ascii.eqb x "%"%char)
  | String p (String h (String l "")) =>
      Ascii.eqb p "%"%char &&
      Ascii.eqb (Ascii.ascii_of_N (16 * hex_value h + hex_value l)%N) c
  | _ => false
  end = true.
Proof.
  destruct c as [[] [] [] [] [] [] [] []]; vm_compute; reflexivity.
Qed.

Lemma quote_byte_roundtrip c rest :
  unquote (quote_byte ["/"%char] c +:+ rest) = String c (unquote rest).
Proof.
  pose proof (quote_byte_decodes c) as H.
  destruct (quote_byte ["/"%char] c) as [|x [|h [|l [|? ?]]]]; try done.
  - apply andb_true_iff in H as [->%Ascii.eqb_eq Hne%negb_true_iff].
    simpl. by rewrite Hne.
  - apply andb_true_iff in H as [->%Ascii.eqb_eq Hc%Ascii.eqb_eq].
    simpl. by rewrite Hc.
Qed.

Lemma unquote_encode_address address :
  unquote (encode_address address) = address.
Proof.
  unfold encode_address. induction address as [|c address IH]; [done|].
  simpl. by rewrite quote_byte_roundtrip, IH.
Qed.




(** X21: [encode_address] loses nothing: two addresses with the same
    encoding are the same address. *)
Theorem encode_address_is_injective a b :
  encode_address a = encode_address b → a = b.
Proof.
  intros Heq.
  by rewrite <- (unquote_encode_address a), <- (unquote_encode_address b), Heq.
Qed.

Lemma string_length_app s1 s2 :
  String.length (s1 +:+ s2) = (String.length s1 + String.length s2)%nat.
Proof. induction s1; simpl; [done|]. by f_equal. Qed.

Lemma quote_length address :
  (String.length address ≤ String.length (quote ["/"%char] address)
     ≤ 3 * String.length address)%nat.
Proof.
  induction address as [|c address IH]; [simpl; lia|].
  simpl. rewrite string_length_app.
  assert (1 ≤ String.length (quote_byte ["/"%char] c) ≤ 3)%nat
    by (unfold quote_byte; destruct (_ || _); simpl; lia).
  lia.
Qed.

Lemma slash_safe c :
  always_safe c || bool_decide (c ∈ ["/"%char]) =
    always_safe c || Ascii.eqb c "/"%char.
Proof.
  f_equal. destruct (Ascii.eqb c "/"%char) eqn:Hc.
  - apply Ascii.eqb_eq in Hc as ->. apply bool_decide_eq_true.
    apply list_elem_of_singleton. done.
  - apply Ascii.eqb_neq in Hc. apply bool_decide_eq_false.
    by intros ->%list_elem_of_singleton.
Qed.


(** X23: the addresses [encode_address] leaves unchanged are exactly those
    made of letters, digits, [_.-~] and slashes; any other byte, a space or
    a comma for instance, changes the string. *)
Theorem encode_address_fixes_safe_addresses address :
  encode_address address = address ↔
  Forall (λ c, always_safe c || Ascii.eqb c "/"%char = true)
    (String.list_ascii_of_string address).
Proof.
  unfold encode_address. induction address as [|c address IH];
    [by split; [constructor|]|].
  simpl. unfold quote_byte. rewrite slash_safe.
  destruct (always_safe c || Ascii.eqb c "/"%char) eqn:Hsafe; simpl.
  - split.
    + intros [= Heq]. constructor; [done|]. by apply IH.
    + intros [_ Hrest]%Forall_cons. f_equal. by apply IH.
  - split.
    + intros [= <- Heq]. exfalso.
      pose proof (quote_length address) as [Hlow _].
      apply (f_equal String.length) in Heq. simpl in Heq.
      rewrite string_length_app in Heq. simpl in Heq. lia.
    + intros [Hc _]%Forall_cons. congruence.
Qed.

End Encoding.

(** ** The further properties on the example runs *)

(** The credential check of [world_denied]. *)
Lemma verify_self_witness :
  let mc := connector argv0 in
  let url := full_url mc "/api/v1/self" in
  let answer :=
    requests_get world_denied (calls fresh) url
      (request_headers (token_header argv0)) in
  ∃ v s',
    verify_self world_denied mc fresh = (Ok v, s') ∧
    steps fresh s' [RequestsGet url (request_headers (token_header argv0))] ∧
    (truthy v = true ↔ ∃ r, answer = Some r ∧ status_code r = 200) ∧
    (v = VBool false ↔ answer = None) ∧
    (v = VNone ↔ ∃ r, answer = Some r ∧ status_code r ≠ 200).
Proof.
  apply (verify_self_accepts_only_200 world_denied (connector argv0)
           (token_header argv0) fresh).
  reflexivity.
Defined.

(** The listing of [world_listing_down]. *)
Lemma get_rf_templates_witness :
  let mc := connector argv0 in
  let answer :=
    requests_get world_listing_down (calls fresh)
      (full_url mc (rftemplates_url mc))
      (request_headers (token_header argv0)) in
  ∃ v s',
    get_rf_templates world_listing_down mc fresh = (Ok v, s') ∧
    steps fresh s' [listing_get mc (token_header argv0)] ∧
    (∀ resp data, answer = Some resp → json resp = Some data → v = data) ∧
    (answer = None → v = VNone) ∧
    (∀ resp, answer = Some resp → json resp = None → v = VNone).
Proof.
  apply (get_rf_templates_returns_json_or_None world_listing_down
           (connector argv0) (token_header argv0) fresh).
  reflexivity.
Defined.

(** A POST in [world_up]. *)
Lemma create_site_witness :
  let mc := connector argv0 in
  let body := VDict (site_body (Some "HQ") hq_geo VNone) in
  ∃ s',
    create_site world_up mc body fresh =
      (Ok (requests_post world_up (calls fresh) (full_url mc (sites_url mc))
             (request_headers (token_header argv0)) body), s') ∧
    steps fresh s' [sites_post mc (token_header argv0) body] ∧
    posted_bodies (calls s') = posted_bodies (calls fresh) ++ [body].
Proof.
  apply (create_site_posts_once world_up (connector argv0)
           (token_header argv0)
           (VDict (site_body (Some "HQ") hq_geo VNone)) fresh).
  reflexivity.
Defined.

(** Looking a template up while the listing is down. *)
Lemma template_lookup_without_listing_witness :
  let mc := connector argv0 in
  (get_rftemplate_by_name world_listing_down mc (Some "Branch") fresh).1 =
    Raise TypeError ∧
  steps fresh
    (get_rftemplate_by_name world_listing_down mc (Some "Branch") fresh).2
    [listing_get mc (token_header argv0)].
Proof.
  apply (template_lookup_without_listing world_listing_down (connector argv0)
           (token_header argv0) (Some "Branch") AttributeError fresh);
    reflexivity.
Defined.

(** Looking a template up in an error object. *)
Lemma template_lookup_in_non_list_witness :
  let v := VDict {[ "detail" := VStr "forbidden" ]} in
  let r := (get_rftemplate_by_name world_listing_error (connector argv0)
              (Some "Branch") fresh).1 in
  (r = Raise StopIteration ∧ (v = VDict ∅ ∨ v = VStr "")) ∨
  (r = Raise TypeError ∧ v ≠ VDict ∅ ∧ v ≠ VStr "").
Proof.
  apply (template_lookup_in_non_list world_listing_error (connector argv0)
           (token_header argv0) (Some "Branch") error_object
           (VDict {[ "detail" := VStr "forbidden" ]}) fresh);
    try reflexivity.
  intros items. discriminate.
Defined.

(** Looking [Branch] up behind an item without a name. *)
Lemma template_lookup_unreadable_witness :
  (get_rftemplate_by_name world_nameless (connector argv0) (Some "Branch")
     fresh).1 = Raise (KeyError "name") ∧
  (KeyError "name" = KeyError "name" ∨ KeyError "name" = TypeError).
Proof.
  apply (template_lookup_stops_at_unreadable_item world_nameless
           (connector argv0) (token_header argv0) (Some "Branch")
           nameless_then_branch [] (VDict {[ "id" := VStr "rf-7" ]})
           [rf_template "Branch" "rf-1"] (KeyError "name") fresh);
    try reflexivity.
  constructor.
Defined.

(** The branch row in [world_no_id]. *)
Lemma template_without_id_witness :
  let mc := connector argv0 in
  let a := Some "500 Main St, Springfield, IL" in
  let front_calls :=
    [GeocoderGoogle (cell_value a);
     front_timezone_call world_no_id (calls fresh) a hq_geo] in
  ∃ s',
    process_site world_no_id mc (DictReader_row named_header branch_cells)
      fresh = (Raise (KeyError "id"), s') ∧
    steps fresh s' (front_calls ++ [listing_get mc (token_header argv0)]).
Proof.
  apply (template_without_id_aborts_row world_no_id (connector argv0)
           (token_header argv0) (DictReader_row named_header branch_cells)
           (Some "500 Main St, Springfield, IL") (Some "Branch 12")
           (Some "Branch") hq_geo {[ "name" := VStr "Branch" ]} fresh);
    try reflexivity.
  discriminate.
Defined.

(** The short row in [world_up]. *)
Lemma short_row_witness :
  let mc := connector argv0 in
  let site := DictReader_row named_header short_cells in
  row_fields site !! "rf_template_name" = Some None ∧
  ∃ s',
    template_step world_up mc site (VDict ∅) fresh =
      (match resolve (requests_get world_up (calls fresh)
                        (full_url mc (rftemplates_url mc))
                        (request_headers (token_header argv0))) None with
       | Ok rf_template =>
           match getitem rf_template "id" with
           | Ok id => Ok (VDict (<[ "rftemplate_id" := id ]> ∅))
           | Raise e => Raise e
           end
       | Raise e => Raise e
       end, s') ∧
    steps fresh s' [listing_get mc (token_header argv0)].
Proof.
  apply (short_row_triggers_template_lookup world_up (connector argv0)
           (token_header argv0) named_header short_cells ∅ fresh).
  - reflexivity.
  - simpl. left.
Defined.

Lemma named_header_NoDup : NoDup named_header.
Proof.
  unfold named_header. repeat (apply NoDup_cons_2; [|]);
    try apply NoDup_nil_2;
    rewrite ?elem_of_cons, ?elem_of_nil; intros H;
    repeat (destruct H as [H|H]; [discriminate H|]); exact H.
Defined.

(** The headquarters row under its header. *)
Lemma DictReader_row_witness :
  let site := DictReader_row named_header hq_cells in
  (∀ i k c,
     named_header !! i = Some k → hq_cells !! i = Some c →
     row_fields site !! k = Some (Some c)) ∧
  (∀ i k,
     named_header !! i = Some k → hq_cells !! i = None →
     row_fields site !! k = Some None) ∧
  (∀ k, k ∉ named_header → row_fields site !! k = None) ∧
  row_rest site =
    (if decide (length named_header < length hq_cells)%nat
     then Some (drop (length named_header) hq_cells) else None).
Proof.
  apply (DictReader_row_reads_cells_by_position named_header hq_cells).
  exact named_header_NoDup.
Defined.

(** The branch row in [world_up]. *)
Lemma row_calls_witness :
  let mc := connector argv0 in
  let site := DictReader_row named_header branch_cells in
  ∃ new posted,
    calls (process_site world_up mc site fresh).2 = calls fresh ++ new ∧
    row_calls mc (token_header argv0) new posted ∧
    Forall has_name posted ∧
    let s' := (process_site world_up mc site fresh).2 in
    match (process_site world_up mc site fresh).1 with
    | Ok _ =>
        ∃ body, posted = [body] ∧
          ((successful_sites s' = successful_sites fresh ++ [body] ∧
            failed_sites s' = failed_sites fresh) ∨
           (successful_sites s' = successful_sites fresh ∧
            failed_sites s' = failed_sites fresh ++ [body]))
    | Raise _ =>
        successful_sites s' = successful_sites fresh ∧
        failed_sites s' = failed_sites fresh
    end.
Proof.
  apply (row_calls_in_order_at_most_once world_up (connector argv0)
           (token_header argv0) (DictReader_row named_header branch_cells)
           fresh).
  reflexivity.
Defined.

(** The run of [world_post_down]. *)
Lemma run_ends_witness :
  let run := main world_post_down argv0 fresh in
  let rows := DictReader hq_only in
  ∃ new,
    calls run.2 =
      calls fresh ++ RequestsGet (full_url (connector argv0) "/api/v1/self")
                       (request_headers (token_header argv0)) :: new ∧
    (length (posted_bodies new) ≤ length rows)%nat ∧
    (length new ≤ 4 * length rows)%nat ∧
    match run.1 with
    | Ok _ =>
        (new = [] ∧
         (verify_self world_post_down (connector argv0)
            (before_verify hq_only fresh)).1 ≠ Ok (VBool true)) ∨
        (length (successful_sites run.2) + length (failed_sites run.2) =
           length rows)%nat
    | Raise _ =>
        (length (successful_sites run.2) + length (failed_sites run.2) <
           length rows)%nat
    end.
Proof.
  apply (run_ends_normally_only_with_all_outcomes world_post_down argv0
           hq_only fresh).
  reflexivity.
Defined.

(** The run of [world_no_file]. *)
Lemma unreadable_file_witness :
  (main world_no_file argv0 fresh).1 = Raise OSError ∧
  calls (main world_no_file argv0 fresh).2 = calls fresh ∧
  console (main world_no_file argv0 fresh).2 = console fresh.
Proof.
  apply (unreadable_file_stops_before_any_call world_no_file argv0 fresh).
  reflexivity.
Defined.

(** The run of [world_header_only]. *)
Lemma run_without_data_rows_witness :
  let run := main world_header_only argv0 fresh in
  run.1 = Ok () ∧
  calls run.2 =
    calls fresh ++ [RequestsGet (full_url (connector argv0) "/api/v1/self")
                      (request_headers (token_header argv0))] ∧
  console run.2 =
    console fresh ++ [PRows []; PValue (VStr "Successful sites: ");
                      PValue (VStr "Failed Sites: ")] ∧
  successful_sites run.2 = [] ∧
  failed_sites run.2 = [].
Proof.
  apply (run_without_data_rows world_header_only argv0 header_only
           (status_only 200) fresh); try reflexivity.
  simpl. repeat constructor.
Defined.

(** The summary of [reported]. *)
Lemma summary_witness :
  ∃ s',
    summary reported = (Ok (), s') ∧ steps reported s' [] ∧
    console s' =
      console reported ++
        [PValue (VStr "Successful sites: ")] ++
        printed_names (successful_sites reported) ++
        [PValue (VStr "Failed Sites: ")] ++
        printed_names (failed_sites reported).
Proof.
  apply (summary_prints_names_in_order reported).
  - constructor; [|constructor]. eexists. reflexivity.
  - constructor; [|constructor]. eexists. reflexivity.
Defined.

(** The headquarters row with another group. *)
Lemma only_three_columns_witness :
  let site := DictReader_row named_header hq_cells in
  process_site world_up (connector argv0) site fresh =
    process_site world_up (connector argv0)
      (set_column "site_groups" (Some "campus") site) fresh.
Proof.
  apply (only_three_columns_are_read world_up (connector argv0)
           (DictReader_row named_header hq_cells)
           (set_column "site_groups" (Some "campus")
              (DictReader_row named_header hq_cells)) fresh).
  repeat split.
Defined.

(** One address, one encoding. *)
Lemma encode_address_injective_witness :
  "1 Infinite Loop, Cupertino, CA" = "1 Infinite Loop, Cupertino, CA".
Proof.
  apply (encode_address_is_injective "1 Infinite Loop, Cupertino, CA"
           "1 Infinite Loop, Cupertino, CA").
  reflexivity.
Defined.
